(** * Fastboot transport and radio-flash routes: a shallow embedding

    The development follows the TypeScript sources:

    - class [FastbootManager] (the module imported as [@/lib/fastboot]; its
      text is the last part of src/app/api/adb/route.ts), embedded in
      [Module FastbootManager];
    - the fastboot route (the part of src/app/api/adb/route.ts that imports
      [fastbootManager]), embedded in [Module FastbootRoute];
    - the radio flash route (the first part of
      src/app/api/radio/flash/route.ts), embedded in [Module RadioFlashRoute];
    - the radio search route (the second part of
      src/app/api/radio/flash/route.ts), embedded in [Module RadioSearchRoute].

    JavaScript strings are modelled as [string] (sequences of 8-bit
    characters; the model covers ASCII text), [string | null] and optional
    fields as [option string], promises that may reject as computations in
    the [Task] monad below, which threads the list of shell commands that
    were handed to [execAsync]. *)

From Stdlib Require Import Bool List ZArith Lia Ascii String.
From Stdlib Require Import Permutation Sorted.
Import ListNotations.

Open Scope list_scope.
Open Scope string_scope.

(** ** JavaScript string primitives *)

Module JS.

(** [WhiteSpace] and [LineTerminator] code points below 128: TAB, LF, VT, FF,
    CR and SPACE.  Both [String.prototype.trim] and the [\s] class use this
    set. *)
Definition isWhiteSpace (c : ascii) : bool :=
  match nat_of_ascii c with
  | 9 | 10 | 11 | 12 | 13 | 32 => true
  | _ => false
  end.

(** Line terminators (LF and CR): the characters [.] does not match. *)
Definition isLineTerminator (c : ascii) : bool :=
  match nat_of_ascii c with
  | 10 | 13 => true
  | _ => false
  end.

(** [\w]: ASCII letters, digits and underscore. *)
Definition isWordChar (c : ascii) : bool :=
  let n := nat_of_ascii c in
  (((48 <=? n) && (n <=? 57)) || ((65 <=? n) && (n <=? 90))
   || ((97 <=? n) && (n <=? 122)) || (n =? 95))%nat.

(** Truthiness of a string: every string but the empty one. *)
Definition nonEmpty (s : string) : bool :=
  match s with
  | EmptyString => false
  | String _ _ => true
  end.

(** Truthiness of a [string | null | undefined] value. *)
Definition truthy (v : option string) : bool :=
  match v with
  | Some s => nonEmpty s
  | None => false
  end.

(** [v || dflt] on an optional string. *)
Definition orElse (v : option string) (dflt : string) : string :=
  match v with
  | Some s => if nonEmpty s then s else dflt
  | None => dflt
  end.

Fixpoint allChars (p : ascii -> bool) (s : string) : bool :=
  match s with
  | EmptyString => true
  | String c s' => p c && allChars p s'
  end.

Fixpoint trimStart (s : string) : string :=
  match s with
  | EmptyString => EmptyString
  | String c s' => if isWhiteSpace c then trimStart s' else s
  end.

Fixpoint trimEnd (s : string) : string :=
  match s with
  | EmptyString => EmptyString
  | String c s' =>
      match trimEnd s' with
      | EmptyString => if isWhiteSpace c then EmptyString else String c EmptyString
      | r => String c r
      end
  end.

(** [s.trim()] *)
Definition trim (s : string) : string := trimEnd (trimStart s).

(** [s.includes(sub)] *)
Fixpoint includes (s sub : string) : bool :=
  prefix sub s ||
  match s with
  | EmptyString => false
  | String _ s' => includes s' sub
  end.

(** [s.split(sep)] for a one-character separator; the result is never
    empty. *)
Fixpoint split (sep : ascii) (s : string) : list string :=
  match s with
  | EmptyString => [EmptyString]
  | String c s' =>
      if Ascii.eqb c sep then EmptyString :: split sep s'
      else match split sep s' with
           | h :: t => String c h :: t
           | [] => [String c EmptyString]
           end
  end.

(** *** The fragment of regular expressions the manager uses

    A pattern is a sequence of atoms: a literal character, or a greedy
    quantified character class ([\s*], [\w+], [.+]), possibly inside a
    capturing group.  Matching backtracks the way the ECMAScript matcher
    does: a quantifier first takes as many characters as it can and gives
    them back one at a time while the rest of the pattern fails. *)

Inductive CharClass := Space | Dot | Word.

Definition inClass (k : CharClass) (c : ascii) : bool :=
  match k with
  | Space => isWhiteSpace c
  | Dot => negb (isLineTerminator c)
  | Word => isWordChar c
  end.

Inductive Atom :=
| Lit (c : ascii)
| Rep (k : CharClass) (atLeast : nat) (capturing : bool).

Definition Pattern := list Atom.

(** The characters with a meaning of their own in the source of a regular
    expression. *)
Definition isSyntaxChar (c : ascii) : bool :=
  match nat_of_ascii c with
  | 36 | 40 | 41 | 42 | 43 | 46 | 47 | 63 | 91 | 92 | 93 | 94 | 123 | 124 | 125 => true
  | _ => false
  end.

(** A name that stands for itself when it is pasted into the source of a
    regular expression. *)
Definition plainName (s : string) : bool :=
  allChars (fun c => negb (isSyntaxChar c)) s.

Fixpoint literal (s : string) : Pattern :=
  match s with
  | EmptyString => []
  | String c s' => Lit c :: literal s'
  end.

(** Greedy repetition of a class, followed by the continuation [cont] for
    the rest of the pattern.  Returns the text the quantifier consumed and
    the captures of the continuation. *)
Fixpoint repeatClass (k : CharClass) (cont : string -> option (list string))
         (atLeast : nat) (s : string) : option (string * list string) :=
  let stop :=
    match atLeast with
    | O => match cont s with
           | Some caps => Some (EmptyString, caps)
           | None => None
           end
    | S _ => None
    end in
  match s with
  | EmptyString => stop
  | String c s' =>
      if inClass k c then
        match repeatClass k cont (pred atLeast) s' with
        | Some (taken, caps) => Some (String c taken, caps)
        | None => stop
        end
      else stop
  end.

(** Match the pattern at the start of [s]; the result lists the captured
    groups in order. *)
Fixpoint matchHere (pat : Pattern) (s : string) : option (list string) :=
  match pat with
  | [] => Some []
  | Lit c :: rest =>
      match s with
      | EmptyString => None
      | String d s' => if Ascii.eqb c d then matchHere rest s' else None
      end
  | Rep k atLeast capturing :: rest =>
      match repeatClass k (matchHere rest) atLeast s with
      | Some (taken, caps) => Some (if capturing then taken :: caps else caps)
      | None => None
      end
  end.

(** [s.match(re)] for a non-global regular expression: the leftmost
    position at which the pattern matches; [None] is [null]. *)
Fixpoint regexMatch (pat : Pattern) (s : string) : option (list string) :=
  match matchHere pat s with
  | Some caps => Some caps
  | None =>
      match s with
      | EmptyString => None
      | String _ s' => regexMatch pat s'
      end
  end.

End JS.

(** ** Promises: computations that return or reject, and log what they run *)

Inductive Outcome (A : Type) : Type :=
| Returned (a : A)
| Threw (message : string).
Arguments Returned {A} a.
Arguments Threw {A} message.

(** The commands handed to the shell so far, oldest first. *)
Definition Log := list string.

Definition Task (A : Type) : Type := Log -> Outcome A * Log.

Definition ret {A} (a : A) : Task A := fun log => (Returned a, log).

Definition throw {A} (message : string) : Task A := fun log => (Threw message, log).

Definition bind {A B} (m : Task A) (k : A -> Task B) : Task B :=
  fun log =>
    match m log with
    | (Returned a, log') => k a log'
    | (Threw message, log') => (Threw message, log')
    end.

(** [try { body } catch (error) { handler(error.message) }] *)
Definition tryCatch {A} (body : Task A) (handler : string -> Task A) : Task A :=
  fun log =>
    match body log with
    | (Returned a, log') => (Returned a, log')
    | (Threw message, log') => handler message log'
    end.

Notation "x <- m ;; k" := (bind m (fun x => k))
  (at level 61, m at next level, right associativity).
Notation "' pat <- m ;; k" := (bind m (fun x => match x with pat => k end))
  (at level 61, pat pattern, m at next level, right associativity).

(** What the host's shell answers to a command line: both output channels,
    or a rejection with the error's message. *)
Definition Shell := string -> Outcome (string * string).

(** [execAsync(command)]: promisified [child_process.exec]. *)
Definition execAsync (sh : Shell) (command : string) : Task (string * string) :=
  fun log => (sh command, log ++ [command])%list.

(** ** [FastbootManager] *)

Module FastbootManager.
Import JS.

Record FastbootCommandResult := {
  success : bool;
  output : string;
  error : option string
}.

Record BootloaderInfo := {
  version : string;
  variant : string;
  locked : bool;
  secureboot : bool;
  serialNumber : string
}.

Section Manager.

Variable sh : Shell.

(** [`-s ${deviceId}`] when a device id is given, the empty string
    otherwise. *)
Definition devicePrefixOf (deviceId : option string) : string :=
  match deviceId with
  | Some id => if nonEmpty id then "-s " ++ id else ""
  | None => ""
  end.

(** The command line [executeCommand] runs ([fullCommand]). *)
Definition fullCommandOf (command : string) (deviceId : option string) : string :=
  let devicePrefix := devicePrefixOf deviceId in
  if nonEmpty devicePrefix
  then "fastboot " ++ devicePrefix ++ " " ++ command
  else "fastboot " ++ command.

Definition executeCommand (command : string) (deviceId : option string)
  : Task FastbootCommandResult :=
  tryCatch
    (let fullCommand := fullCommandOf command deviceId in
     '(stdout, stderr) <- execAsync sh fullCommand ;;
     ret {| success := true; output := stdout ++ stderr; error := None |})
    (fun message =>
       ret {| success := false; output := ""; error := Some message |}).

(** The device ids in the output of [fastboot devices]: the first
    tab-separated field of every line that is not blank and mentions
    [fastboot]. *)
Definition parseDeviceList (stdout : string) : list string :=
  let lines := split "010"%char stdout in
  filter (fun id => nonEmpty id)
    (map (fun line => hd "" (split "009"%char line))
       (filter (fun line => nonEmpty (trim line) && includes line "fastboot")
          lines)).

(** [getConnectedDevices()]; the empty list when the command fails. *)
Definition getConnectedDevices : Task (list string) :=
  tryCatch
    ('(stdout, _) <- execAsync sh "fastboot devices" ;;
     let devices := parseDeviceList stdout in
     ret devices)
    (fun _ => ret []).

(** The regular expression [`${variable}:\\s*(.+)`].  The variable name is
    pasted into the expression's source, so the model is the expression the
    code builds when the name has no character with a meaning in regular
    expressions (see [plainName]); every name the manager passes is such a
    name. *)
Definition variablePattern (variable : string) : Pattern :=
  (literal variable ++ [Lit ":"%char; Rep Space 0 false; Rep Dot 1 true])%list.

(** [match ? match[1].trim() : null] *)
Definition firstGroupTrimmed (m : option (list string)) : option string :=
  match m with
  | Some caps => Some (trim (hd "" caps))
  | None => None
  end.

(** The command line [getVariable] runs ([command]). *)
Definition getvarCommand (variable devicePrefix : string) : string :=
  if nonEmpty devicePrefix
  then "fastboot " ++ devicePrefix ++ " getvar " ++ variable
  else "fastboot getvar " ++ variable.

(** What [getVariable] makes of the text [output]. *)
Definition extractVariable (variable output : string) : option string :=
  let m := regexMatch (variablePattern variable) output in
  firstGroupTrimmed m.


Definition getVariable (variable devicePrefix : string) : Task (option string) :=
  tryCatch
    (let command := getvarCommand variable devicePrefix in
     '(stdout, stderr) <- execAsync sh command ;;
     let output := stdout ++ stderr in
     ret (extractVariable variable output))
    (fun _ => ret None).

(** [v === 'yes'] on a [string | null] value. *)
Definition isYes (v : option string) : bool :=
  match v with
  | Some s => String.eqb s "yes"
  | None => false
  end.

(** [getBootloaderInfo(deviceId?)].  [Promise.all] starts the five queries
    in the order they are listed. *)
Definition getBootloaderInfo (deviceId : option string)
  : Task (option BootloaderInfo) :=
  tryCatch
    (devices <- getConnectedDevices ;;
     if (List.length devices =? 0)%nat then ret None
     else
       let devicePrefix := devicePrefixOf deviceId in
       version <- getVariable "version-bootloader" devicePrefix ;;
       variant <- getVariable "variant" devicePrefix ;;
       locked <- getVariable "unlocked" devicePrefix ;;
       secureboot <- getVariable "secure" devicePrefix ;;
       serialNumber <- getVariable "serialno" devicePrefix ;;
       ret (Some {| version := orElse version "Unknown";
                    variant := orElse variant "Unknown";
                    locked := negb (isYes locked);
                    secureboot := isYes secureboot;
                    serialNumber := orElse serialNumber "Unknown" |}))
    (fun _ => ret None).

(** The double-quote character, as a one-character string. *)
Definition dquote : string := String "034"%char EmptyString.

Definition flashPartition (partition imagePath : string) (deviceId : option string)
  : Task FastbootCommandResult :=
  executeCommand ("flash " ++ partition ++ " " ++ dquote ++ imagePath ++ dquote)
                 deviceId.

Definition erasePartition (partition : string) (deviceId : option string)
  : Task FastbootCommandResult :=
  executeCommand ("erase " ++ partition) deviceId.

(** [filesystem] defaults to ['ext4'] when the caller leaves it out. *)
Definition formatPartition (partition : string) (filesystem : option string)
           (deviceId : option string) : Task FastbootCommandResult :=
  let filesystem := match filesystem with Some f => f | None => "ext4" end in
  executeCommand ("format:" ++ filesystem ++ " " ++ partition) deviceId.

(** [mode] is typed ['system' | 'bootloader' | 'recovery'] but the route
    passes the request's string unchecked ([mode as any]). *)
Definition rebootDevice (mode : string) (deviceId : option string)
  : Task FastbootCommandResult :=
  let rebootCommand :=
    if String.eqb mode "system" then "reboot" else "reboot-" ++ mode in
  executeCommand rebootCommand deviceId.

(** The regular expression [/partition-type:\w+:\s*(.+)/]. *)
Definition partitionTypePattern : Pattern :=
  (literal "partition-type:" ++
   [Rep Word 1 false; Lit ":"%char; Rep Space 0 false; Rep Dot 1 true])%list.

Definition getPartitionInfo (partition : string) (deviceId : option string)
  : Task (option string) :=
  tryCatch
    (result <- executeCommand ("getvar partition-type:" ++ partition) deviceId ;;
     if success result
     then ret (firstGroupTrimmed (regexMatch partitionTypePattern (output result)))
     else ret None)
    (fun _ => ret None).

Definition unlockBootloader (deviceId : option string) : Task FastbootCommandResult :=
  executeCommand "flashing unlock" deviceId.

Definition lockBootloader (deviceId : option string) : Task FastbootCommandResult :=
  executeCommand "flashing lock" deviceId.

Definition flashRecovery (recoveryPath : string) (deviceId : option string) :=
  flashPartition "recovery" recoveryPath deviceId.

Definition flashBoot (bootPath : string) (deviceId : option string) :=
  flashPartition "boot" bootPath deviceId.

Definition flashSystem (systemPath : string) (deviceId : option string) :=
  flashPartition "system" systemPath deviceId.

Definition flashRadio (radioPath : string) (deviceId : option string) :=
  flashPartition "radio" radioPath deviceId.

Definition flashModem (modemPath : string) (deviceId : option string) :=
  flashPartition "modem" modemPath deviceId.

Definition continueBootloader (deviceId : option string) : Task FastbootCommandResult :=
  executeCommand "continue" deviceId.

(** The host's file system, as far as [validateImage] looks at it: the size
    of the file at a path, [None] when [fs.access] or [fs.stat] rejects. *)
Variable fileSize : string -> option Z.

Definition validateImage (imagePath : string) : Task bool :=
  tryCatch
    (match fileSize imagePath with
     | Some size => ret (0 <? size)%Z
     | None => throw "ENOENT"
     end)
    (fun _ => ret false).

End Manager.

(** *** [waitForDevice]: the polling loop, with the clock made explicit

    Time is in milliseconds.  The host fixes what the shell answers to a
    command launched at a given instant, how long that command takes, and by
    how much a timer armed at a given instant fires late; durations are
    natural numbers, so the clock never runs backwards and a
    [setTimeout(resolve, 1000)] never resolves early. *)

Record Host := {
  shellAt : Z -> Shell;
  execTime : Z -> N;
  timerLag : Z -> N
}.

(** One run of [waitForDevice]: what the promise settled with, the instants
    at which the device list was queried (oldest first), and the instant at
    which the promise settled. *)
Record WaitRun := {
  answer : Outcome bool;
  polls : list Z;
  finishedAt : Z
}.

(** The [while] loop; [now] is what [Date.now()] reads when the loop
    condition is evaluated, [polled] the queries made so far.  [None] when
    the fuel runs out. *)
Fixpoint waitLoop (host : Host) (fuel : nat) (startTime timeout now : Z)
         (polled : list Z) : option WaitRun :=
  match fuel with
  | O => None
  | S fuel' =>
      if (now - startTime <? timeout)%Z then
        let afterQuery := (now + Z.of_N (execTime host now))%Z in
        match fst (getConnectedDevices (shellAt host now) []) with
        | Returned devices =>
            if (0 <? List.length devices)%nat then
              Some {| answer := Returned true;
                      polls := (polled ++ [now])%list;
                      finishedAt := afterQuery |}
            else
              let afterSleep := (afterQuery + 1000 + Z.of_N (timerLag host afterQuery))%Z in
              waitLoop host fuel' startTime timeout afterSleep (polled ++ [now])%list
        | Threw message =>
            Some {| answer := Threw message;
                    polls := (polled ++ [now])%list;
                    finishedAt := afterQuery |}
        end
      else
        Some {| answer := Returned false; polls := polled; finishedAt := now |}
  end.

(** Iterations that are always enough: the loop body runs at most once per
    started second of [timeout], and one more evaluation of the condition
    ends the loop. *)
Definition pollBudget (timeout : Z) : nat := Z.to_nat (timeout / 1000) + 2.

(** [waitForDevice(timeout)], called at instant [startTime]. *)
Definition waitForDevice (host : Host) (startTime timeout : Z) : option WaitRun :=
  waitLoop host (pollBudget timeout) startTime timeout startTime [].

(** The device ids a query launched at instant [t] reports. *)
Definition devicesAt (host : Host) (t : Z) : list string :=
  match fst (getConnectedDevices (shellAt host t) []) with
  | Returned devices => devices
  | Threw _ => []
  end.

(** Instants that start at [earliest] or later and lie [gap] or more
    apart. *)
Fixpoint spacedFrom (gap earliest : Z) (instants : list Z) : Prop :=
  match instants with
  | [] => True
  | t :: later => (earliest <= t)%Z /\ spacedFrom gap (t + gap)%Z later
  end.

(** What one run of the loop adds to the queries made before it. *)
Record LoopFacts (host : Host) (startTime timeout now : Z) (added : list Z)
       (run : WaitRun) : Prop := {
  lf_spaced : spacedFrom 1000 now added;
  lf_before_timeout : Forall (fun t => (t - startTime < timeout)%Z) added;
  lf_outcome :
    (answer run = Returned true /\
     exists earlier t,
       added = (earlier ++ [t])%list /\
       Forall (fun u => devicesAt host u = []) earlier /\
       devicesAt host t <> [] /\
       finishedAt run = (t + Z.of_N (execTime host t))%Z)
    \/
    (answer run = Returned false /\
     Forall (fun u => devicesAt host u = []) added /\
     (timeout <= finishedAt run - startTime)%Z /\
     (now <= finishedAt run)%Z)
}.

End FastbootManager.

(** ** The fastboot route, [POST] *)

Module FastbootRoute.
Import JS.

(** The fields [POST] reads from the request's JSON body, for a body that
    is an object whose fields are strings or missing; a field that is
    missing is [None].  Bodies that are not JSON, [null], or no object are
    in [FastbootRequests]; an object with a field of another type is
    outside the model. *)
Record Body := {
  action : option string;
  deviceId : option string;
  command : option string;
  partition : option string;
  imagePath : option string;
  recoveryPath : option string;
  bootPath : option string;
  systemPath : option string;
  radioPath : option string;
  modemPath : option string;
  erasePartition : option string;
  formatPartition : option string;
  filesystem : option string;
  mode : option string;
  infoPartition : option string;
  validateImagePath : option string
}.

Inductive Response :=
| BadRequest (error : string)
    (** status 400, [{ success: false, error }] *)
| CommandResponse (result : FastbootManager.FastbootCommandResult)
                  (message : option string)
    (** [{ success, output, error }] of a command result *)
| PartitionInfoResponse (partitionInfo : option string)
| ValidateImageResponse (valid : bool) (message : string)
| ServerError (error : string).
    (** status 500 *)

(** The string held by a field that passed a truthiness check. *)
Definition valueOf (v : option string) : string :=
  match v with Some s => s | None => "" end.

Section Route.

Variable sh : Shell.
Variable fileSize : string -> option Z.

Definition respond (t : Task FastbootManager.FastbootCommandResult) : Task Response :=
  result <- t ;; ret (CommandResponse result None).

(** A [flash-*] action with one required image path. *)
Definition flashWith (path : option string) (missing : string)
           (flash : string -> option string -> Task FastbootManager.FastbootCommandResult)
           (deviceId : option string) : Task Response :=
  if negb (truthy path) then ret (BadRequest missing)
  else respond (flash (valueOf path) deviceId).

Definition POST (body : Body) : Task Response :=
  tryCatch
    (let deviceId := deviceId body in
     let action := valueOf (action body) in
     if String.eqb action "execute" then
       if negb (truthy (command body)) then ret (BadRequest "Command is required")
       else respond (FastbootManager.executeCommand sh (valueOf (command body)) deviceId)
     else if String.eqb action "unlock-bootloader" then
       unlockResult <- FastbootManager.unlockBootloader sh deviceId ;;
       ret (CommandResponse unlockResult
              (Some "Please confirm bootloader unlock on your device"))
     else if String.eqb action "lock-bootloader" then
       respond (FastbootManager.lockBootloader sh deviceId)
     else if String.eqb action "flash-partition" then
       if negb (truthy (partition body)) || negb (truthy (imagePath body))
       then ret (BadRequest "Partition and image path are required")
       else
         isValid <- FastbootManager.validateImage fileSize (valueOf (imagePath body)) ;;
         if negb isValid then ret (BadRequest "Invalid or missing image file")
         else respond (FastbootManager.flashPartition sh (valueOf (partition body))
                         (valueOf (imagePath body)) deviceId)
     else if String.eqb action "flash-recovery" then
       flashWith (recoveryPath body) "Recovery image path is required"
                 (FastbootManager.flashRecovery sh) deviceId
     else if String.eqb action "flash-boot" then
       flashWith (bootPath body) "Boot image path is required"
                 (FastbootManager.flashBoot sh) deviceId
     else if String.eqb action "flash-system" then
       flashWith (systemPath body) "System image path is required"
                 (FastbootManager.flashSystem sh) deviceId
     else if String.eqb action "flash-radio" then
       flashWith (radioPath body) "Radio image path is required"
                 (FastbootManager.flashRadio sh) deviceId
     else if String.eqb action "flash-modem" then
       flashWith (modemPath body) "Modem image path is required"
                 (FastbootManager.flashModem sh) deviceId
     else if String.eqb action "erase-partition" then
       if negb (truthy (erasePartition body))
       then ret (BadRequest "Partition name is required")
       else respond (FastbootManager.erasePartition sh
                       (valueOf (erasePartition body)) deviceId)
     else if String.eqb action "format-partition" then
       if negb (truthy (formatPartition body))
       then ret (BadRequest "Partition name is required")
       else respond (FastbootManager.formatPartition sh
                       (valueOf (formatPartition body))
                       (Some (orElse (filesystem body) "ext4")) deviceId)
     else if String.eqb action "reboot" then
       let mode := orElse (mode body) "system" in
       respond (FastbootManager.rebootDevice sh mode deviceId)
     else if String.eqb action "continue" then
       respond (FastbootManager.continueBootloader sh deviceId)
     else if String.eqb action "get-partition-info" then
       if negb (truthy (infoPartition body))
       then ret (BadRequest "Partition name is required")
       else
         partitionInfo <- FastbootManager.getPartitionInfo sh
                            (valueOf (infoPartition body)) deviceId ;;
         ret (PartitionInfoResponse partitionInfo)
     else if String.eqb action "validate-image" then
       if negb (truthy (validateImagePath body))
       then ret (BadRequest "Image path is required")
       else
         isValidImage <- FastbootManager.validateImage fileSize
                           (valueOf (validateImagePath body)) ;;
         ret (ValidateImageResponse isValidImage
                (if isValidImage then "Image file is valid"
                 else "Image file is invalid or missing"))
     else ret (BadRequest "Invalid action"))
    (fun message => ret (ServerError message)).

End Route.

End FastbootRoute.

(** ** The radio flash route, [POST] *)

Module RadioFlashRoute.
Import JS.

(** One frame of the event stream: the object that is serialised after
    [data: ].  Fields left out of the object are [None]. *)
Record ProgressEvent := {
  stage : string;
  progress : Z;
  message : string;
  success : option bool;
  error : option string
}.

(** Modelled from the spec: [radioFirmwareManager.flashRadioFirmware] lives
    in src/lib/radio-firmware.ts, which is not among the sources.  A call is
    represented by what the route can observe of it: the progress values it
    hands to the callback, in order (with the wire shape of the spec's
    progress events), and what its promise settles with. *)
Record FlashRun := {
  emitted : list ProgressEvent;
  settled : Outcome bool
}.

Record Body := {
  action : option string;
  firmwarePath : option string;
  deviceId : option string;
  firmwareId : option string
}.

Inductive Response :=
| BadRequest (error : string)
| EventStream (frames : list ProgressEvent)
| CurrentVersion (currentVersion : option string)
| Backup (ok : bool) (backupPath : option string) (message : string)
| NotImplemented (error : string)
| ServerError (error : string).

Definition finalResult (success : bool) : ProgressEvent :=
  {| success := Some success;
     stage := if success then "complete" else "error";
     progress := if success then 100 else 0;
     message := if success then "Radio firmware flashed successfully!"
                else "Flash operation failed";
     error := None |}.

Definition errorResult (message : string) : ProgressEvent :=
  {| success := Some false;
     stage := "error";
     progress := 0;
     message := "Flash operation failed";
     error := Some message |}.

Section Route.

Variable flashRadioFirmware : string -> option string -> FlashRun.
Variable getCurrentRadioVersion : option string -> Outcome (option string).
Variable backupCurrentRadio : option string -> Outcome (option string).

(** The frames [flashFirmware] enqueues before it closes the stream: one per
    progress callback, then the final one. *)
Definition flashFirmware (firmwarePath : string) (deviceId : option string)
  : list ProgressEvent :=
  let run := flashRadioFirmware firmwarePath deviceId in
  (emitted run ++
   [match settled run with
    | Returned success => finalResult success
    | Threw message => errorResult message
    end])%list.

Definition POST (body : Body) : Response :=
  let action := match action body with Some a => a | None => "" end in
  if String.eqb action "flash" then
    match firmwarePath body with
    | Some path =>
        if nonEmpty path then EventStream (flashFirmware path (deviceId body))
        else BadRequest "Firmware path is required"
    | None => BadRequest "Firmware path is required"
    end
  else if String.eqb action "get-current-version" then
    match getCurrentRadioVersion (deviceId body) with
    | Returned currentVersion => CurrentVersion currentVersion
    | Threw message => ServerError message
    end
  else if String.eqb action "backup" then
    match backupCurrentRadio (deviceId body) with
    | Returned backupPath =>
        Backup (truthy backupPath) backupPath
               (if truthy backupPath then "Radio backup created"
                else "Backup failed - requires root access")
    | Threw message => ServerError message
    end
  else if String.eqb action "download" then
    if negb (truthy (firmwareId body)) then BadRequest "Firmware ID is required"
    else NotImplemented "Download functionality not yet implemented"
  else BadRequest "Invalid action".

End Route.

(** The progress value most recently sent before the final frame, [None]
    when the stream has no earlier frame. *)
Definition lastKnownProgress (run : FlashRun) : option Z :=
  match rev (emitted run) with
  | e :: _ => Some (progress e)
  | [] => None
  end.

End RadioFlashRoute.

(** ** The flashing orchestrator's session registry

    The route of the previous section only relays what
    [radioFirmwareManager.flashRadioFirmware] does; sessions are kept by
    that manager (src/lib/radio-firmware.ts), which is not among the
    sources.  This module models it from the specification, sections 3, 4.4
    and 5. *)

Module FlashOrchestrator.

(** Modelled from the spec: the stages of a [FlashSession] (the session
    type of src/lib/radio-firmware.ts is not among the sources). *)
Inductive Stage :=
| Idle | Detecting | BackingUp | Downloading | Verifying | Flashing | Confirming
| Complete | Failed.

(** Modelled from the spec: the terminal stages are [Complete] and
    [Failed]. *)
Definition isTerminal (st : Stage) : bool :=
  match st with
  | Complete | Failed => true
  | _ => false
  end.

(** Modelled from the spec: the fields of a [FlashSession]. *)
Record FlashSession := {
  deviceId : string;
  stage : Stage;
  progressPercent : Z;
  startedAt : Z;
  lastError : option string
}.

(** Modelled from the spec: the session registry and the concurrency guard
    of the flashing orchestrator (src/lib/radio-firmware.ts is not among the
    sources).  The registry holds every session that was started; a session
    is active while its stage is not terminal. *)
Definition Registry := list FlashSession.

(** Modelled from the spec: a non-terminal session of [device]. *)
Definition isActiveFor (device : string) (s : FlashSession) : bool :=
  String.eqb (deviceId s) device && negb (isTerminal (stage s)).

(** Modelled from the spec: the guard's lookup of an existing non-terminal
    session. *)
Definition activeSession (device : string) (reg : Registry) : option FlashSession :=
  find (isActiveFor device) reg.

(** Modelled from the spec: a start is accepted with its new session or
    refused with an error. *)
Inductive StartResult :=
| Started (session : FlashSession)
| Rejected (error : string).

(** Modelled from the spec: [startFlash], up to the point where the session
    is registered.  A device with a non-terminal session is refused with
    [SessionAlreadyActive]; the registry is left as it was. *)
Definition startFlash (device : string) (now : Z) (reg : Registry)
  : StartResult * Registry :=
  match activeSession device reg with
  | Some _ => (Rejected ("SessionAlreadyActive: " ++ device), reg)
  | None =>
      let session := {| deviceId := device; stage := Idle; progressPercent := 0;
                        startedAt := now; lastError := None |} in
      (Started session, (reg ++ [session])%list)
  end.

(** Modelled from the spec: the state machine of section 4.4,
    [Idle -> Detecting -> Backing-Up -> Downloading -> Verifying -> Flashing
    -> Confirming -> Complete]. *)
Definition nextStage (st : Stage) : Stage :=
  match st with
  | Idle => Detecting
  | Detecting => BackingUp
  | BackingUp => Downloading
  | Downloading => Verifying
  | Verifying => Flashing
  | Flashing => Confirming
  | Confirming => Complete
  | Complete => Complete
  | Failed => Failed
  end.

(** Modelled from the spec: sessions are changed by the orchestrator only,
    and only while they are not terminal. *)
Definition updateActive (device : string) (f : FlashSession -> FlashSession)
           (reg : Registry) : Registry :=
  map (fun s => if isActiveFor device s then f s else s) reg.

(** Modelled from the spec: the active session of a device moves to its next
    stage and reports a percentage. *)
Definition advance (device : string) (percent : Z) (reg : Registry) : Registry :=
  updateActive device
    (fun s => {| deviceId := deviceId s; stage := nextStage (stage s);
                 progressPercent := if isTerminal (nextStage (stage s)) then 100 else percent;
                 startedAt := startedAt s; lastError := lastError s |}) reg.

(** Modelled from the spec: an unrecoverable error moves the active session
    to [Failed], keeping the last known percentage. *)
Definition fail (device : string) (error : string) (reg : Registry) : Registry :=
  updateActive device
    (fun s => {| deviceId := deviceId s; stage := Failed;
                 progressPercent := progressPercent s;
                 startedAt := startedAt s; lastError := Some error |}) reg.

(** Modelled from the spec: what can happen to the registry. *)
Inductive Request :=
| StartFlash (device : string) (now : Z)
| Advance (device : string) (percent : Z)
| Fail (device : string) (error : string).

(** Modelled from the spec: the registry after one request. *)
Definition handle (reg : Registry) (r : Request) : Registry :=
  match r with
  | StartFlash device now => snd (startFlash device now reg)
  | Advance device percent => advance device percent reg
  | Fail device error => fail device error reg
  end.

(** Modelled from the spec: the registry after a sequence of requests,
    oldest first, starting with no session. *)
Definition run (requests : list Request) : Registry :=
  fold_left handle requests [].

(** Modelled from the spec: the number of sessions of [device] that are not
    terminal. *)
Definition activeCount (device : string) (reg : Registry) : nat :=
  List.length (filter (isActiveFor device) reg).

(** Modelled from the spec: what [flashRadioFirmware] lets the route observe
    when the guard refuses the request: no progress, and a rejection that
    carries the guard's error. *)
Definition refusedRun (error : string) : RadioFlashRoute.FlashRun :=
  {| RadioFlashRoute.emitted := []; RadioFlashRoute.settled := Threw error |}.

End FlashOrchestrator.

(** ** The radio search route: the sorting step of [search-advanced] *)

Module RadioSearchRoute.

Record FirmwareRecord := {
  version : string;
  region : string;
  buildDate : Z;   (** [new Date(buildDate).getTime()] *)
  size : Z
}.

(** The place of white space, punctuation and symbols on the first
    collation level, by character code: TAB, LF, VT, FF, CR and space; then
    underscore, hyphen, comma, semicolon, colon, exclamation mark, question
    mark, full stop, apostrophe, quotation mark, round, square and curly
    brackets, at sign, asterisk, slash, backslash, ampersand, number sign
    and percent sign; then grave accent, circumflex, plus, less-than,
    equals, greater-than, vertical bar and tilde; then the dollar sign. *)
Definition punctuationWeight (n : N) : option N :=
  match n with
  | 9 => Some 1 | 10 => Some 2 | 11 => Some 3 | 12 => Some 4 | 13 => Some 5
  | 32 => Some 6 | 95 => Some 7 | 45 => Some 8 | 44 => Some 9 | 59 => Some 10
  | 58 => Some 11 | 33 => Some 12 | 63 => Some 13 | 46 => Some 14
  | 39 => Some 15 | 34 => Some 16 | 40 => Some 17 | 41 => Some 18
  | 91 => Some 19 | 93 => Some 20 | 123 => Some 21 | 125 => Some 22
  | 64 => Some 23 | 42 => Some 24 | 47 => Some 25 | 92 => Some 26
  | 38 => Some 27 | 35 => Some 28 | 37 => Some 29 | 96 => Some 30
  | 94 => Some 31 | 43 => Some 32 | 60 => Some 33 | 61 => Some 34
  | 62 => Some 35 | 124 => Some 36 | 126 => Some 37 | 36 => Some 38
  | _ => None
  end%N.

(** The first collation level on ASCII text: white space, punctuation and
    symbols in the order above, then the digits, then the letters, a letter
    and its capital alike.  The other control characters, which collation
    skips, and the characters above 127 are outside the model. *)
Definition primaryWeight (c : ascii) : N :=
  let n := N_of_ascii c in
  (if (48 <=? n) && (n <=? 57) then n - 9
   else if (97 <=? n) && (n <=? 122) then n - 48
   else if (65 <=? n) && (n <=? 90) then n - 16
   else match punctuationWeight n with
        | Some w => w
        | None => 1000 + n
        end)%N.

(** The case level: a small letter before its capital. *)
Definition caseWeight (c : ascii) : N :=
  let n := N_of_ascii c in
  (if (65 <=? n) && (n <=? 90) then 1 else 0)%N.

Fixpoint compareKeys (w : ascii -> N) (a b : string) : comparison :=
  match a, b with
  | EmptyString, EmptyString => Eq
  | EmptyString, String _ _ => Lt
  | String _ _, EmptyString => Gt
  | String x a', String y b' =>
      match N.compare (w x) (w y) with
      | Eq => compareKeys w a' b'
      | r => r
      end
  end.

Definition sign (c : comparison) : Z :=
  match c with
  | Lt => -1
  | Eq => 0
  | Gt => 1
  end.

(** [a.localeCompare(b)] with no locale or option argument, on printable
    ASCII text: the strings are compared character by character on the
    first collation level, and on the case level only when the first level
    finds no difference anywhere in the two strings. *)
Definition localeCompare (a b : string) : Z :=
  match compareKeys primaryWeight a b with
  | Eq => sign (compareKeys caseWeight a b)
  | r => sign r
  end.

(** The comparator handed to [filteredResults.sort]. *)
Definition compareBy (sortBy : string) (a b : FirmwareRecord) : Z :=
  if String.eqb sortBy "version" then localeCompare (version b) (version a)
  else if String.eqb sortBy "date" then (buildDate b - buildDate a)%Z
  else if String.eqb sortBy "size" then (size b - size a)%Z
  else 0%Z.

(** [Array.prototype.sort] is stable: elements the comparator does not
    separate keep their order. *)
Fixpoint insertSorted {A} (cmp : A -> A -> Z) (x : A) (l : list A) : list A :=
  match l with
  | [] => [x]
  | y :: l' => if (cmp x y <=? 0)%Z then x :: l else y :: insertSorted cmp x l'
  end.

Definition sort {A} (cmp : A -> A -> Z) (l : list A) : list A :=
  fold_right (insertSorted cmp) [] l.





End RadioSearchRoute.

(** ** Concrete hosts and requests *)

Module Examples.
Import JS FastbootManager.

Definition tab : string := String "009"%char EmptyString.
Definition newline : string := String "010"%char EmptyString.

(** A host with two phones in bootloader mode.  [fastboot getvar] answers
    on standard error; the bootloader knows [unlocked] only. *)
Definition twoDevices : Shell := fun command =>
  if String.eqb command "fastboot devices" then
    Returned ("abc123" ++ tab ++ "fastboot" ++ newline ++
              "def456" ++ tab ++ "fastboot" ++ newline, "")
  else if String.eqb command "fastboot getvar unlocked" then
    Returned ("", "unlocked: yes" ++ newline ++
                  "Finished. Total time: 0.001s" ++ newline)
  else if prefix "fastboot getvar" command then
    Threw ("Command failed: " ++ command)
  else Returned ("", "OKAY" ++ newline).

(** A host with no phone attached: every command fails. *)
Definition noDevice : Shell := fun command =>
  Threw ("Command failed: " ++ command).

(** A file system on which every path is an image of one mebibyte. *)
Definition anyImage : string -> option Z := fun _ => Some 1048576%Z.

(** [{ action: 'erase-partition', erasePartition: 'userdata; reboot' }] *)
Definition eraseAndReboot : FastbootRoute.Body :=
  {| FastbootRoute.action := Some "erase-partition"; FastbootRoute.deviceId := None;
     FastbootRoute.command := None; FastbootRoute.partition := None;
     FastbootRoute.imagePath := None; FastbootRoute.recoveryPath := None;
     FastbootRoute.bootPath := None; FastbootRoute.systemPath := None;
     FastbootRoute.radioPath := None; FastbootRoute.modemPath := None;
     FastbootRoute.erasePartition := Some "userdata; reboot";
     FastbootRoute.formatPartition := None;
     FastbootRoute.filesystem := None; FastbootRoute.mode := None;
     FastbootRoute.infoPartition := None; FastbootRoute.validateImagePath := None |}.

(** A host on which a phone shows up in the device list from the instant
    2500 on; a query takes 40 ms and timers fire 3 ms late. *)
Definition lateDevice : Host :=
  {| shellAt := fun t => if (t <? 2500)%Z then noDevice else twoDevices;
     execTime := fun _ => 40%N;
     timerLag := fun _ => 3%N |}.

(** A host on which no phone ever shows up. *)
Definition neverAttached : Host :=
  {| shellAt := fun _ => noDevice;
     execTime := fun _ => 40%N;
     timerLag := fun _ => 3%N |}.

(** A bootloader that splits its answer over the two channels. *)
Definition splitAnswer : Shell := fun _ => Returned ("unlocked:", " no" ++ newline).

(** A host on which a phone is attached all along. *)
Definition attached : Host :=
  {| shellAt := fun _ => twoDevices;
     execTime := fun _ => 40%N;
     timerLag := fun _ => 3%N |}.

(** A flash that reports 60 percent while flashing and then resolves with
    [false]. *)
Definition failsWhileFlashing : RadioFlashRoute.FlashRun :=
  {| RadioFlashRoute.emitted :=
       [ {| RadioFlashRoute.stage := "flashing"; RadioFlashRoute.progress := 60;
            RadioFlashRoute.message := "Flashing radio firmware...";
            RadioFlashRoute.success := None; RadioFlashRoute.error := None |} ];
     RadioFlashRoute.settled := Returned false |}.

Definition fw (v : string) : RadioSearchRoute.FirmwareRecord :=
  {| RadioSearchRoute.version := v; RadioSearchRoute.region := "EU";
     RadioSearchRoute.buildDate := 0; RadioSearchRoute.size := 0 |}.

End Examples.

(** ** More of JavaScript: lower case, [||], [??] and optional chaining *)

Module JSLogic.
Import JS.

(** [toLowerCase] on ASCII text. *)
Definition lowerChar (c : ascii) : ascii :=
  let n := nat_of_ascii c in
  if ((65 <=? n) && (n <=? 90))%nat then ascii_of_nat (n + 32) else c.

Fixpoint toLowerCase (s : string) : string :=
  match s with
  | EmptyString => EmptyString
  | String c s' => String (lowerChar c) (toLowerCase s')
  end.

(** [v?.toLowerCase().includes(marker)]: [undefined] when [v] is [null]. *)
Definition includesLowered (v : option string) (marker : string) : option bool :=
  match v with
  | Some s => Some (includes (toLowerCase s) marker)
  | None => None
  end.

(** [a || b] on values that are [true], [false] or [undefined]. *)
Definition orJS (a b : option bool) : option bool :=
  match a with
  | Some true => a
  | _ => b
  end.

(** [a ?? false] *)
Definition orFalse (a : option bool) : bool :=
  match a with
  | Some b => b
  | None => false
  end.

(** Truthiness of a value that is [true], [false] or [undefined]. *)
Definition isTruthy (a : option bool) : bool :=
  match a with
  | Some true => true
  | _ => false
  end.

End JSLogic.

(** ** [FastbootManager]: the remaining queries *)

Module FastbootQueries.
Import JS JSLogic FastbootManager.

Section Manager.

Variable sh : Shell.

Definition checkFastbootInstallation : Task bool :=
  tryCatch
    ('(stdout, _) <- execAsync sh "fastboot --version" ;;
     ret (includes stdout "fastboot version" || includes stdout "Android Debug Bridge"))
    (fun _ => ret false).

Definition getDeviceCodename (deviceId : option string) : Task (option string) :=
  getVariable sh "product" (devicePrefixOf deviceId).

Definition isOnePlusDevice (deviceId : option string) : Task bool :=
  tryCatch
    (product <- getVariable sh "product" (devicePrefixOf deviceId) ;;
     brand <- getVariable sh "brand" (devicePrefixOf deviceId) ;;
     ret (orFalse
            (orJS (orJS (orJS (includesLowered product "oneplus")
                              (includesLowered brand "oneplus"))
                        (includesLowered product "op"))
                  (includesLowered product "nord"))))
    (fun _ => ret false).

End Manager.

(** The text [fastboot devices] prints for a list of device ids. *)
Fixpoint deviceListing (ids : list string) : string :=
  match ids with
  | [] => EmptyString
  | id :: rest =>
      id ++ String "009"%char "fastboot" ++ String "010"%char (deviceListing rest)
  end.

(** A device id as [fastboot devices] prints one: not empty, and free of
    tabs and line feeds. *)
Definition isDeviceId (id : string) : bool :=
  nonEmpty id &&
  allChars (fun c => negb (Ascii.eqb c "009"%char) && negb (Ascii.eqb c "010"%char)) id.

(** The first place at which [variable] and a colon occur in
    [before ++ variable ++ ":"] is after [before]. *)
Definition firstOccurrence (variable before : string) : Prop :=
  forall b1 b2,
    before ++ variable ++ ":" = b1 ++ variable ++ ":" ++ b2 -> b2 = "".

(** [rest] is empty or starts a new line. *)
Definition endsLine (rest : string) : bool :=
  match rest with
  | EmptyString => true
  | String c _ => isLineTerminator c
  end.

(** The first character of [s], if any, is not white space. *)
Definition startsWithText (s : string) : bool :=
  match s with
  | EmptyString => true
  | String c _ => negb (isWhiteSpace c)
  end.

End FastbootQueries.

(** ** The radio search route: [search-advanced] after the catalogue
       search *)

Module SearchAdvanced.
Import JS JSLogic RadioSearchRoute.

(** A catalogue record with the field the query filter also reads. *)
Record Firmware := {
  record : FirmwareRecord;
  changelog : option string
}.

(** The callback of [filteredResults.filter], for a query already in lower
    case. *)
Definition matchesQuery (searchQuery : string) (fw : Firmware) : bool :=
  isTruthy
    (orJS (orJS (Some (includes (toLowerCase (version (record fw))) searchQuery))
                (includesLowered (changelog fw) searchQuery))
          (Some (includes (toLowerCase (region (record fw))) searchQuery))).

(** [if (query) { ... filter ... }] *)
Definition filterByQuery (query : option string) (results : list Firmware)
  : list Firmware :=
  match query with
  | Some q =>
      if nonEmpty q then filter (matchesQuery (toLowerCase q)) results else results
  | None => results
  end.

(** [if (sortBy) filteredResults.sort(...)] *)
Definition sortFirmware (sortBy : option string) (results : list Firmware)
  : list Firmware :=
  match sortBy with
  | Some key =>
      if nonEmpty key
      then sort (fun a b => compareBy key (record a) (record b)) results
      else results
  | None => results
  end.

(** [if (limit && limit > 0) filteredResults = filteredResults.slice(0, limit)] *)
Definition limitResults (limit : option Z) (results : list Firmware)
  : list Firmware :=
  match limit with
  | Some n => if (0 <? n)%Z then firstn (Z.to_nat n) results else results
  | None => results
  end.

Record AdvancedResponse := {
  firmware : list Firmware;
  totalCount : nat;
  hasMore : bool
}.

(** What [search-advanced] answers, given the records
    [firmwareDatabaseManager.searchFirmware] found. *)
Definition searchAdvanced (query sortBy : option string) (limit : option Z)
           (searchResults : list Firmware) : AdvancedResponse :=
  let filteredResults :=
    limitResults limit (sortFirmware sortBy (filterByQuery query searchResults)) in
  {| firmware := filteredResults;
     totalCount := List.length filteredResults;
     hasMore := false |}.

(** The records [search-advanced] cuts off. *)
Definition cutOff (query sortBy : option string) (limit : option Z)
           (searchResults : list Firmware) : list Firmware :=
  match limit with
  | Some n =>
      if (0 <? n)%Z
      then skipn (Z.to_nat n) (sortFirmware sortBy (filterByQuery query searchResults))
      else []
  | None => []
  end.

End SearchAdvanced.

(** ** More concrete hosts and requests *)

Module MoreExamples.
Import JS FastbootManager.

(** A bootloader that answers every [getvar] with a OnePlus 7 Pro's
    values. *)
Definition guacamole : Shell := fun command =>
  if String.eqb command "fastboot getvar product" then
    Returned ("", "product: msmnile" ++ Examples.newline)
  else if String.eqb command "fastboot getvar brand" then
    Returned ("", "brand: OnePlus" ++ Examples.newline)
  else if String.eqb command "fastboot getvar partition-type:boot-a" then
    Returned ("", "partition-type:boot-a: raw" ++ Examples.newline)
  else if String.eqb command "fastboot getvar partition-type:boot_a" then
    Returned ("", "partition-type:boot_a: raw" ++ Examples.newline)
  else Examples.twoDevices command.

(** A file system with no file at all. *)
Definition noImage : string -> option Z := fun _ => None.

(** [{ action: 'flash-partition', partition: 'boot', imagePath: 'boot.img',
       deviceId: 'abc123' }] *)
Definition flashBootImage : FastbootRoute.Body :=
  {| FastbootRoute.action := Some "flash-partition";
     FastbootRoute.deviceId := Some "abc123";
     FastbootRoute.command := None; FastbootRoute.partition := Some "boot";
     FastbootRoute.imagePath := Some "boot.img"; FastbootRoute.recoveryPath := None;
     FastbootRoute.bootPath := None; FastbootRoute.systemPath := None;
     FastbootRoute.radioPath := None; FastbootRoute.modemPath := None;
     FastbootRoute.erasePartition := None; FastbootRoute.formatPartition := None;
     FastbootRoute.filesystem := None; FastbootRoute.mode := None;
     FastbootRoute.infoPartition := None; FastbootRoute.validateImagePath := None |}.

(** [{ action: 'flash-radio', radioPath: '/nowhere/radio.img' }] *)
Definition flashMissingRadio : FastbootRoute.Body :=
  {| FastbootRoute.action := Some "flash-radio"; FastbootRoute.deviceId := None;
     FastbootRoute.command := None; FastbootRoute.partition := None;
     FastbootRoute.imagePath := None; FastbootRoute.recoveryPath := None;
     FastbootRoute.bootPath := None; FastbootRoute.systemPath := None;
     FastbootRoute.radioPath := Some "/nowhere/radio.img";
     FastbootRoute.modemPath := None;
     FastbootRoute.erasePartition := None; FastbootRoute.formatPartition := None;
     FastbootRoute.filesystem := None; FastbootRoute.mode := None;
     FastbootRoute.infoPartition := None; FastbootRoute.validateImagePath := None |}.

Definition fw (v r : string) (date sz : Z) (log : option string)
  : SearchAdvanced.Firmware :=
  {| SearchAdvanced.record :=
       {| RadioSearchRoute.version := v; RadioSearchRoute.region := r;
          RadioSearchRoute.buildDate := date; RadioSearchRoute.size := sz |};
     SearchAdvanced.changelog := log |}.

Definition catalogue : list SearchAdvanced.Firmware :=
  [ fw "11.0.5" "EU" 1600000000000 52000000 (Some "Modem fixes");
    fw "11.0.9" "Global" 1620000000000 53000000 None;
    fw "10.3.8" "EU" 1580000000000 50000000 (Some "Security patch") ].

End MoreExamples.

(** ** The schedule of [waitForDevice]'s queries *)

Module Polling.
Import FastbootManager.

(** The instant of the query that follows a query launched at [t] which
    reported no device: the query ends, a timer of 1000 ms is armed, and the
    loop condition is evaluated when the timer fires. *)
Definition nextQuery (host : Host) (t : Z) : Z :=
  let afterQuery := (t + Z.of_N (execTime host t))%Z in
  (afterQuery + 1000 + Z.of_N (timerLag host afterQuery))%Z.

(** [instants] are consecutive queries of the loop, the first of them at
    [first]. *)
Fixpoint scheduled (host : Host) (first : Z) (instants : list Z) : Prop :=
  match instants with
  | [] => True
  | t :: later => t = first /\ scheduled host (nextQuery host t) later
  end.

(** The instant at which the loop condition is evaluated after the queries
    [instants], the first of which was due at [first]. *)
Fixpoint scheduleEnd (host : Host) (first : Z) (instants : list Z) : Z :=
  match instants with
  | [] => first
  | t :: later => scheduleEnd host (nextQuery host t) later
  end.

(** A host on which a phone shows up in the device list from the instant
    4000 on; a query takes 40 ms and timers fire 3 ms late. *)
Definition phoneAt4000 : Host :=
  {| shellAt := fun t => if (t <? 4000)%Z then Examples.noDevice
                         else Examples.twoDevices;
     execTime := fun _ => 40%N;
     timerLag := fun _ => 3%N |}.

End Polling.

(** ** The fastboot route: what [POST] does before its [switch] *)

Module FastbootRequests.

(** What arrives as the body of a request.  [NotJson] is a body that
    [request.json()] rejects, with the message of its error; [JsonNull] is
    the body [null]; [JsonOther] is a number, a boolean, a string or an
    array, none of which has a property that [POST] reads; [JsonObject] is
    an object whose properties, as far as [POST] reads them, are strings or
    missing.  An object with a property of another type is outside the
    model. *)
Inductive RequestBody :=
| NotJson (message : string)
| JsonNull
| JsonOther
| JsonObject (body : FastbootRoute.Body).

(** The body [POST] works with when the request held no object: every
    property reads [undefined]. *)
Definition noProperties : FastbootRoute.Body :=
  {| FastbootRoute.action := None; FastbootRoute.deviceId := None;
     FastbootRoute.command := None; FastbootRoute.partition := None;
     FastbootRoute.imagePath := None; FastbootRoute.recoveryPath := None;
     FastbootRoute.bootPath := None; FastbootRoute.systemPath := None;
     FastbootRoute.radioPath := None; FastbootRoute.modemPath := None;
     FastbootRoute.erasePartition := None; FastbootRoute.formatPartition := None;
     FastbootRoute.filesystem := None; FastbootRoute.mode := None;
     FastbootRoute.infoPartition := None; FastbootRoute.validateImagePath := None |}.

Section Route.

Variable sh : Shell.
Variable fileSize : string -> option Z.

(** The message of the [TypeError] that [const { action, deviceId } = body]
    throws when [body] is [null]. *)
Variable destructuringError : string.

(** [POST(request)]: [await request.json()] and the destructuring of the
    body are inside the [try] whose [catch] answers with status 500. *)
Definition POST (request : RequestBody) : Task FastbootRoute.Response :=
  match request with
  | NotJson message => ret (FastbootRoute.ServerError message)
  | JsonNull => ret (FastbootRoute.ServerError destructuringError)
  | JsonOther => FastbootRoute.POST sh fileSize noProperties
  | JsonObject body => FastbootRoute.POST sh fileSize body
  end.

End Route.

End FastbootRequests.

(** * Properties *)

(** ** Strings *)

Module StringFacts.
Import JS.

Lemma append_assoc (a b c : string) : (a ++ b) ++ c = a ++ (b ++ c).
Proof. induction a as [|x a IH]; simpl; [reflexivity | now rewrite IH]. Qed.


Lemma length_append (a b : string) :
  String.length (a ++ b) = String.length a + String.length b.
Proof. induction a as [|x a IH]; simpl; [reflexivity | now rewrite IH]. Qed.

Lemma allChars_append p (a b : string) :
  allChars p (a ++ b) = allChars p a && allChars p b.
Proof.
  induction a as [|x a IH]; simpl; [reflexivity|].
  now rewrite IH, andb_assoc.
Qed.

(** *** The matcher against its declarative reading *)

Lemma repeatClass_sound k cont :
  forall s atLeast taken caps,
    repeatClass k cont atLeast s = Some (taken, caps) ->
    exists rest,
      s = taken ++ rest /\ allChars (inClass k) taken = true /\
      atLeast <= String.length taken /\ cont rest = Some caps.
Proof.
  assert (Hstop : forall s atLeast taken caps,
             match atLeast with
             | O => match cont s with
                    | Some caps => Some (EmptyString, caps)
                    | None => None
                    end
             | S _ => None
             end = Some (taken, caps) ->
             exists rest, s = taken ++ rest /\ allChars (inClass k) taken = true /\
                          atLeast <= String.length taken /\ cont rest = Some caps).
  { intros s [|n] taken caps H; [|discriminate].
    destruct (cont s) as [caps'|] eqn:E; [|discriminate].
    inversion H; subst. exists s. simpl. auto. }
  induction s as [|c s IH]; intros atLeast taken caps H; simpl in H.
  - now apply Hstop.
  - destruct (inClass k c) eqn:Hc; [|now apply Hstop].
    destruct (repeatClass k cont (pred atLeast) s) as [[t cs]|] eqn:E.
    + inversion H; subst. destruct (IH _ _ _ E) as (rest & -> & Hall & Hlen & Hk).
      exists rest. simpl. rewrite Hc, Hall. repeat split; auto. lia.
    + now apply Hstop.
Qed.


Lemma matchHere_rep k atLeast capturing rest s :
  matchHere (Rep k atLeast capturing :: rest) s =
  match repeatClass k (matchHere rest) atLeast s with
  | Some (taken, caps) => Some (if capturing then taken :: caps else caps)
  | None => None
  end.
Proof. reflexivity. Qed.

Lemma matchHere_lit c rest d s :
  matchHere (Lit c :: rest) (String d s) =
  if Ascii.eqb c d then matchHere rest s else None.
Proof. reflexivity. Qed.

Lemma matchHere_literal (name : string) (pat : Pattern) caps :
  forall s, matchHere (literal name ++ pat)%list s = Some caps <->
            exists s', s = name ++ s' /\ matchHere pat s' = Some caps.
Proof.
  induction name as [|c name IH]; intros s; simpl.
  - split; [intros H; now exists s | intros (s' & -> & H); exact H].
  - destruct s as [|d s].
    + split; [discriminate | intros (s' & H & _); discriminate].
    + destruct (Ascii.eqb_spec c d) as [->|Hne].
      * rewrite IH. split.
        -- intros (s' & -> & H). now exists s'.
        -- intros (s' & Heq & H). inversion Heq; subst. now exists s'.
      * split; [discriminate|].
        intros (s' & Heq & _). inversion Heq; congruence.
Qed.



(** *** [trim] *)

Lemma trimStart_spec (s : string) :
  exists l, s = l ++ trimStart s /\ allChars isWhiteSpace l = true.
Proof.
  induction s as [|c s (l & IH & Hl)]; simpl.
  - now exists "".
  - destruct (isWhiteSpace c) eqn:Hc.
    + exists (String c l). simpl. rewrite Hc, Hl. split; [now f_equal | reflexivity].
    + now exists "".
Qed.


Lemma trimEnd_spec (s : string) :
  exists r, s = trimEnd s ++ r /\ allChars isWhiteSpace r = true.
Proof.
  induction s as [|c s (r & IH & Hr)]; simpl.
  - now exists "".
  - destruct (trimEnd s) as [|d t] eqn:E.
    + simpl in IH. destruct (isWhiteSpace c) eqn:Hc.
      * exists (String c s). simpl. rewrite Hc. subst s. now rewrite Hr.
      * exists s. simpl. subst s. now rewrite Hr.
    + exists r. simpl. split; [now rewrite IH at 1 | exact Hr].
Qed.





Lemma trim_spec (s : string) :
  exists l r, s = l ++ trim s ++ r /\
              allChars isWhiteSpace l = true /\ allChars isWhiteSpace r = true.
Proof.
  destruct (trimStart_spec s) as (l & Hs & Hl).
  destruct (trimEnd_spec (trimStart s)) as (r & Ht & Hr).
  exists l, r. unfold trim. now rewrite <- Ht.
Qed.

End StringFacts.

(** ** The fastboot manager *)

Module FastbootFacts.
Import JS FastbootManager StringFacts.

(** What a task does is fixed by the shell: the commands it runs are added
    to the log, and its outcome does not depend on what was logged before. *)

Lemma executeCommand_run sh command deviceId log :
  executeCommand sh command deviceId log =
  (Returned match sh (fullCommandOf command deviceId) with
            | Returned (stdout, stderr) =>
                {| success := true; output := stdout ++ stderr; error := None |}
            | Threw message =>
                {| success := false; output := ""; error := Some message |}
            end,
   (log ++ [fullCommandOf command deviceId])%list).
Proof.
  unfold executeCommand, tryCatch, bind, execAsync, ret.
  destruct (sh (fullCommandOf command deviceId)) as [[stdout stderr]|message];
    reflexivity.
Qed.

Lemma getConnectedDevices_run sh log :
  getConnectedDevices sh log =
  (Returned match sh "fastboot devices" with
            | Returned (stdout, _) => parseDeviceList stdout
            | Threw _ => []
            end,
   (log ++ ["fastboot devices"])%list).
Proof.
  unfold getConnectedDevices, tryCatch, bind, execAsync, ret.
  destruct (sh "fastboot devices") as [[stdout stderr]|message]; reflexivity.
Qed.

Lemma getVariable_run sh variable devicePrefix log :
  getVariable sh variable devicePrefix log =
  (Returned match sh (getvarCommand variable devicePrefix) with
            | Returned (stdout, stderr) => extractVariable variable (stdout ++ stderr)
            | Threw _ => None
            end,
   (log ++ [getvarCommand variable devicePrefix])%list).
Proof.
  unfold getVariable, tryCatch, bind, execAsync, ret.
  destruct (sh (getvarCommand variable devicePrefix)) as [[stdout stderr]|message];
    reflexivity.
Qed.

(** C4.  [executeCommand] never rejects: whatever the command and the
    device id, the promise resolves with a result object.  When the shell
    command succeeds the result has [success = true], [output] is standard
    output followed by standard error, and there is no [error]; when the
    command fails the result has [success = false] and [error] holds the
    failure's message. *)
Theorem executeCommand_never_throws (sh : Shell) (command : string)
        (deviceId : option string) (log : Log) :
  exists result log',
    executeCommand sh command deviceId log = (Returned result, log') /\
    match sh (fullCommandOf command deviceId) with
    | Returned (stdout, stderr) =>
        success result = true /\ output result = stdout ++ stderr /\
        error result = None
    | Threw message =>
        success result = false /\ error result = Some message
    end.
Proof.
  rewrite executeCommand_run. eexists. eexists. split; [reflexivity|].
  destruct (sh (fullCommandOf command deviceId)) as [[stdout stderr]|message];
    simpl; auto.
Qed.

(** *** [getVariable] *)

Lemma variablePattern_sound variable s caps :
  matchHere (variablePattern variable) s = Some caps ->
  exists spaces value rest,
    s = variable ++ ":" ++ spaces ++ value ++ rest /\
    allChars isWhiteSpace spaces = true /\
    value <> "" /\
    allChars (fun c => negb (isLineTerminator c)) value = true /\
    caps = [value].
Proof.
  unfold variablePattern. intros H.
  apply matchHere_literal in H as (s1 & -> & H).
  destruct s1 as [|d s2]; [discriminate|].
  rewrite matchHere_lit in H.
  destruct (Ascii.eqb_spec ":"%char d) as [<-|]; [|discriminate].
  rewrite matchHere_rep in H.
  destruct (repeatClass Space _ 0 s2) as [[spaces caps1]|] eqn:E1; [|discriminate].
  inversion H; subst caps1; clear H.
  apply repeatClass_sound in E1 as (rest1 & -> & Hsp & _ & Hk).
  rewrite matchHere_rep in Hk.
  destruct (repeatClass Dot _ 1 rest1) as [[value caps2]|] eqn:E2; [|discriminate].
  inversion Hk; subst caps; clear Hk.
  apply repeatClass_sound in E2 as (rest & -> & Hval & Hlen & Hk).
  simpl in Hk. inversion Hk; subst caps2.
  exists spaces, value, rest. repeat split; auto.
  intros ->. simpl in Hlen. lia.
Qed.






Example extractVariable_spelling :
  extractVariable "unlocked" "UNLOCKED: yes" = None /\
  extractVariable "unlocked" "Unlocked: yes" = None /\
  extractVariable "unlocked" ("(bootloader) unlocked:   yes  " ++ Examples.newline)
    = Some "yes".
Proof. repeat split. Qed.

Example getVariable_reads_standard_error :
  getVariable Examples.twoDevices "unlocked" "-s abc123" [] =
    (Returned None, ["fastboot -s abc123 getvar unlocked"]) /\
  getVariable Examples.twoDevices "unlocked" "" [] =
    (Returned (Some "yes"), ["fastboot getvar unlocked"]) /\
  getVariable Examples.splitAnswer "unlocked" "" [] =
    (Returned (Some "no"), ["fastboot getvar unlocked"]).
Proof. repeat split. Qed.

Example parseDeviceList_skips_other_lines :
  parseDeviceList ("abc123" ++ Examples.tab ++ "fastboot" ++ Examples.newline ++
                   "   " ++ Examples.newline ++
                   "def456" ++ Examples.tab ++ "device" ++ Examples.newline ++
                   Examples.tab ++ "fastboot" ++ Examples.newline)
  = ["abc123"].
Proof. reflexivity. Qed.

(** *** [getBootloaderInfo] *)

Lemma getBootloaderInfo_run sh deviceId log :
  let prefix := devicePrefixOf deviceId in
  let var name := fst (getVariable sh name prefix []) in
  getBootloaderInfo sh deviceId log =
  match fst (getConnectedDevices sh []) with
  | Returned [] => (Returned None, (log ++ ["fastboot devices"])%list)
  | Returned (_ :: _) =>
      match var "version-bootloader", var "variant", var "unlocked",
            var "secure", var "serialno" with
      | Returned version, Returned variant, Returned locked,
        Returned secureboot, Returned serialNumber =>
          (Returned (Some {| version := orElse version "Unknown";
                             variant := orElse variant "Unknown";
                             locked := negb (isYes locked);
                             secureboot := isYes secureboot;
                             serialNumber := orElse serialNumber "Unknown" |}),
           (log ++ ["fastboot devices";
                    getvarCommand "version-bootloader" prefix;
                    getvarCommand "variant" prefix;
                    getvarCommand "unlocked" prefix;
                    getvarCommand "secure" prefix;
                    getvarCommand "serialno" prefix])%list)
      | _, _, _, _, _ => (Returned None, log)
      end
  | Threw _ => (Returned None, log)
  end.
Proof.
  cbv zeta. unfold getBootloaderInfo, tryCatch, bind.
  rewrite !getConnectedDevices_run. cbn [fst].
  destruct (match sh "fastboot devices" with
            | Returned (stdout, _) => parseDeviceList stdout
            | Threw _ => []
            end) as [|d ds]; [reflexivity|].
  cbn [List.length Nat.eqb].
  rewrite !getVariable_run. cbn [fst]. unfold ret.
  rewrite <- !app_assoc. reflexivity.
Qed.

(** C9.  [getBootloaderInfo] never rejects.  When no device is listed it
    resolves with [null].  Otherwise it resolves with the bootloader's
    information, in which [locked] is true exactly when [getVariable] does
    not give the string [yes] for [unlocked]; so a variable that is missing
    from the output, or a query that fails, gives [locked = true]. *)
Theorem getBootloaderInfo_locked_unless_yes (sh : Shell)
        (deviceId : option string) (log : Log) :
  exists result log' devices unlocked,
    getBootloaderInfo sh deviceId log = (Returned result, log') /\
    fst (getConnectedDevices sh log) = Returned devices /\
    fst (getVariable sh "unlocked" (devicePrefixOf deviceId) log) = Returned unlocked /\
    (devices = [] -> result = None) /\
    (devices <> [] ->
     exists info,
       result = Some info /\
       (locked info = true <-> unlocked <> Some "yes") /\
       (unlocked = None -> locked info = true) /\
       (forall message,
          sh (getvarCommand "unlocked" (devicePrefixOf deviceId)) = Threw message ->
          locked info = true)).
Proof.
  pose proof (getBootloaderInfo_run sh deviceId log) as Hrun.
  cbv beta zeta in Hrun.
  rewrite !getVariable_run, getConnectedDevices_run in Hrun. cbn [fst] in Hrun.
  rewrite getVariable_run, getConnectedDevices_run. cbn [fst].
  set (devices := match sh "fastboot devices" with
                  | Returned (stdout, _) => parseDeviceList stdout
                  | Threw _ => []
                  end) in *.
  set (unlocked := match sh (getvarCommand "unlocked" (devicePrefixOf deviceId)) with
                   | Returned (stdout, stderr) =>
                       extractVariable "unlocked" (stdout ++ stderr)
                   | Threw _ => None
                   end) in *.
  destruct devices as [|d ds] eqn:Hd.
  - exists None. eexists. exists [], unlocked.
    repeat split; [exact Hrun | congruence].
  - eexists. eexists. exists (d :: ds), unlocked.
    split; [exact Hrun|]. split; [reflexivity|]. split; [reflexivity|].
    split; [discriminate|]. intros _. eexists. split; [reflexivity|].
    cbn [locked]. repeat split.
    + intros Hl Hu. rewrite Hu in Hl. discriminate.
    + intros Hu. destruct unlocked as [v|]; [|reflexivity].
      cbn [isYes]. destruct (String.eqb_spec v "yes"); [congruence | reflexivity].
    + intros ->. reflexivity.
    + intros message Hm. subst unlocked. rewrite Hm. reflexivity.
Qed.

(** *** Commands without a device id *)

(** C7, as the specification states it, fails: with two devices attached
    and no device id, a destructive command is run and reported as a
    success, and [getBootloaderInfo] answers with the information of
    whichever device [fastboot] picked. *)
Lemma two_devices_no_id_no_error :
  fst (getConnectedDevices Examples.twoDevices []) = Returned ["abc123"; "def456"] /\
  executeCommand Examples.twoDevices "erase radio" None [] =
    (Returned {| success := true; output := "OKAY" ++ Examples.newline; error := None |},
     ["fastboot erase radio"]) /\
  getBootloaderInfo Examples.twoDevices None [] =
    (Returned (Some {| version := "Unknown"; variant := "Unknown"; locked := false;
                       secureboot := false; serialNumber := "Unknown" |}),
     ["fastboot devices"; "fastboot getvar version-bootloader";
      "fastboot getvar variant"; "fastboot getvar unlocked";
      "fastboot getvar secure"; "fastboot getvar serialno"]).
Proof. repeat split; vm_compute; reflexivity. Qed.

(** C7, amended.  Without a device id the transport never looks at how many
    devices are attached before it acts.  [executeCommand] runs exactly one
    command, [fastboot <command>] with no [-s] selector, and reports that
    command's outcome.  [getBootloaderInfo] lists the devices and, when the
    list has one entry or more, queries the five variables with no selector
    and resolves with the information it read. *)
Theorem no_device_id_runs_unscoped (sh : Shell) (command : string) (log : Log) :
  (exists result,
     executeCommand sh command None log =
       (Returned result, (log ++ [("fastboot " ++ command)%string])%list) /\
     match sh ("fastboot " ++ command) with
     | Returned (stdout, stderr) =>
         success result = true /\ output result = stdout ++ stderr /\
         error result = None
     | Threw message => success result = false /\ error result = Some message
     end) /\
  (forall first others,
     fst (getConnectedDevices sh log) = Returned (first :: others) ->
     exists info,
       getBootloaderInfo sh None log =
         (Returned (Some info),
          (log ++ ["fastboot devices"; "fastboot getvar version-bootloader";
                   "fastboot getvar variant"; "fastboot getvar unlocked";
                   "fastboot getvar secure"; "fastboot getvar serialno"])%list)).
Proof.
  split.
  - rewrite executeCommand_run. eexists. split; [reflexivity|].
    change (fullCommandOf command None) with ("fastboot " ++ command).
    destruct (sh ("fastboot " ++ command)) as [[stdout stderr]|message]; simpl; auto.
  - intros first others Hd.
    pose proof (getBootloaderInfo_run sh None log) as Hrun.
    cbv beta zeta in Hrun.
    rewrite getConnectedDevices_run in Hd, Hrun. cbn [fst] in Hd, Hrun.
    injection Hd as Hd. rewrite Hd in Hrun.
    rewrite !getVariable_run in Hrun. cbn [fst] in Hrun.
    eexists. exact Hrun.
Qed.

(** *** Partition operations *)

(** C3, as the specification states it, fails: a partition name that holds
    a shell separator passes the route's check and reaches the shell inside
    the command line. *)
Lemma metacharacters_reach_the_shell :
  FastbootRoute.POST Examples.twoDevices Examples.anyImage Examples.eraseAndReboot [] =
    (Returned (FastbootRoute.CommandResponse
                 {| success := true; output := "OKAY" ++ Examples.newline;
                    error := None |} None),
     ["fastboot erase userdata; reboot"]) /\
  snd (flashPartition Examples.twoDevices "radio" "x.img$(reboot)" None []) =
    ["fastboot flash radio " ++ dquote ++ "x.img$(reboot)" ++ dquote] /\
  snd (formatPartition Examples.twoDevices "cache|reboot" None None []) =
    ["fastboot format:ext4 cache|reboot"] /\
  snd (rebootDevice Examples.twoDevices "x;id" None []) = ["fastboot reboot-x;id"] /\
  snd (getPartitionInfo Examples.twoDevices "boot`id`" None []) =
    ["fastboot getvar partition-type:boot`id`"].
Proof. repeat split; vm_compute; reflexivity. Qed.

Lemma getPartitionInfo_log sh partition deviceId log :
  snd (getPartitionInfo sh partition deviceId log) =
  (log ++ [fullCommandOf ("getvar partition-type:" ++ partition)%string
                         deviceId])%list.
Proof.
  unfold getPartitionInfo, tryCatch, bind. rewrite executeCommand_run.
  destruct (sh _) as [[stdout stderr]|message]; reflexivity.
Qed.

(** C3, amended.  The manager's operations check nothing: each pastes the
    partition, image path, file system and mode it is given into one command
    line and hands that line to the shell, whatever characters the values
    hold.  The route checks only that the required parameters are there:
    when one is missing or empty it answers 400 before any command is run
    ([reboot] requires none). *)
Theorem partition_operations_paste_arguments (sh : Shell)
        (fileSize : string -> option Z) (deviceId : option string) (log : Log) :
  (forall partition imagePath,
     snd (flashPartition sh partition imagePath deviceId log) =
     (log ++ [fullCommandOf ("flash " ++ partition ++ " " ++ dquote ++ imagePath
                             ++ dquote)%string deviceId])%list) /\
  (forall partition,
     snd (erasePartition sh partition deviceId log) =
     (log ++ [fullCommandOf ("erase " ++ partition)%string deviceId])%list) /\
  (forall partition filesystem,
     snd (formatPartition sh partition (Some filesystem) deviceId log) =
     (log ++ [fullCommandOf ("format:" ++ filesystem ++ " " ++ partition)%string
                            deviceId])%list) /\
  (forall mode, mode <> "system" ->
     snd (rebootDevice sh mode deviceId log) =
     (log ++ [fullCommandOf ("reboot-" ++ mode)%string deviceId])%list) /\
  (forall partition,
     snd (getPartitionInfo sh partition deviceId log) =
     (log ++ [fullCommandOf ("getvar partition-type:" ++ partition)%string
                            deviceId])%list) /\
  (forall body,
     FastbootRoute.action body = Some "flash-partition" ->
     truthy (FastbootRoute.partition body) = false \/
     truthy (FastbootRoute.imagePath body) = false ->
     FastbootRoute.POST sh fileSize body log =
     (Returned (FastbootRoute.BadRequest "Partition and image path are required"),
      log)) /\
  (forall body,
     FastbootRoute.action body = Some "erase-partition" ->
     truthy (FastbootRoute.erasePartition body) = false ->
     FastbootRoute.POST sh fileSize body log =
     (Returned (FastbootRoute.BadRequest "Partition name is required"), log)) /\
  (forall body,
     FastbootRoute.action body = Some "format-partition" ->
     truthy (FastbootRoute.formatPartition body) = false ->
     FastbootRoute.POST sh fileSize body log =
     (Returned (FastbootRoute.BadRequest "Partition name is required"), log)) /\
  (forall body,
     FastbootRoute.action body = Some "get-partition-info" ->
     truthy (FastbootRoute.infoPartition body) = false ->
     FastbootRoute.POST sh fileSize body log =
     (Returned (FastbootRoute.BadRequest "Partition name is required"), log)).
Proof.
  repeat match goal with |- _ /\ _ => split end.
  - intros. unfold flashPartition. now rewrite executeCommand_run.
  - intros. unfold erasePartition. now rewrite executeCommand_run.
  - intros. unfold formatPartition. now rewrite executeCommand_run.
  - intros mode Hm. unfold rebootDevice.
    destruct (String.eqb_spec mode "system"); [contradiction|].
    now rewrite executeCommand_run.
  - intros. apply getPartitionInfo_log.
  - intros body Ha Hmiss. unfold FastbootRoute.POST, tryCatch. rewrite Ha.
    cbn [FastbootRoute.valueOf String.eqb Ascii.eqb Bool.eqb].
    destruct Hmiss as [-> | ->]; cbn [negb orb]; [reflexivity|].
    rewrite orb_true_r. reflexivity.
  - intros body Ha Hmiss. unfold FastbootRoute.POST, tryCatch. rewrite Ha, Hmiss.
    reflexivity.
  - intros body Ha Hmiss. unfold FastbootRoute.POST, tryCatch. rewrite Ha, Hmiss.
    reflexivity.
  - intros body Ha Hmiss. unfold FastbootRoute.POST, tryCatch. rewrite Ha, Hmiss.
    reflexivity.
Qed.

End FastbootFacts.

(** ** [waitForDevice] *)

Module WaitFacts.
Import JS FastbootManager FastbootFacts.

Local Open Scope Z_scope.

Lemma spacedFrom_weaken gap lo lo' ts :
  lo' <= lo -> spacedFrom gap lo ts -> spacedFrom gap lo' ts.
Proof. destruct ts as [|t ts]; simpl; [trivial|]. intros ? [? ?]. split; [lia|assumption]. Qed.

Lemma waitLoop_facts host startTime timeout :
  forall fuel now polled run,
    waitLoop host fuel startTime timeout now polled = Some run ->
    exists added,
      polls run = (polled ++ added)%list /\
      LoopFacts host startTime timeout now added run.
Proof.
  induction fuel as [|fuel IH]; intros now polled run H; [discriminate|].
  cbn [waitLoop] in H.
  destruct (now - startTime <? timeout) eqn:Hlt.
  - apply Z.ltb_lt in Hlt.
    pose proof (getConnectedDevices_run (shellAt host now) []) as Hrun.
    assert (Hdev : fst (getConnectedDevices (shellAt host now) []) =
                   Returned (devicesAt host now)).
    { unfold devicesAt. rewrite Hrun. reflexivity. }
    rewrite Hdev in H.
    destruct (devicesAt host now) as [|d ds] eqn:Hd; cbn [List.length Nat.ltb Nat.leb] in H.
    + apply IH in H as (added & Hp & [Hs Hb Ho]).
      exists (now :: added). split; [now rewrite Hp, <- app_assoc|].
      split.
      * simpl. split; [lia|]. eapply spacedFrom_weaken; [|exact Hs]. lia.
      * constructor; assumption.
      * destruct Ho as [(Ha & earlier & t & -> & He & Ht & Hf)
                       | (Ha & Hn & Hto & Hfin)].
        -- left. split; [exact Ha|]. exists (now :: earlier), t.
           repeat split; auto.
        -- right. repeat split; auto. lia.
    + inversion H; subst run; clear H.
      exists [now]. split; [reflexivity|]. split.
      * simpl. split; [lia | exact I].
      * constructor; [exact Hlt | constructor].
      * left. split; [reflexivity|]. exists [], now. cbn [finishedAt].
        repeat split; auto. rewrite Hd. discriminate.
  - apply Z.ltb_ge in Hlt. inversion H; subst run; clear H.
    exists []. split; [now rewrite app_nil_r|]. split.
    + exact I.
    + constructor.
    + right. cbn [answer finishedAt]. repeat split; auto. lia.
Qed.

Lemma waitLoop_enough_fuel host startTime timeout :
  forall fuel now polled,
    timeout - (now - startTime) <= 1000 * Z.of_nat fuel ->
    waitLoop host (S fuel) startTime timeout now polled <> None.
Proof.
  induction fuel as [|fuel IH]; intros now polled Hfuel; cbn [waitLoop].
  - destruct (now - startTime <? timeout) eqn:Hlt; [|discriminate].
    apply Z.ltb_lt in Hlt. lia.
  - destruct (now - startTime <? timeout) eqn:Hlt; [|discriminate].
    destruct (fst (getConnectedDevices (shellAt host now) [])) as [devices|message];
      [|discriminate].
    destruct (0 <? List.length devices)%nat; [discriminate|].
    apply IH. lia.
Qed.

Lemma waitLoop_more_fuel host startTime timeout :
  forall fuel fuel' now polled run,
    (fuel <= fuel')%nat ->
    waitLoop host fuel startTime timeout now polled = Some run ->
    waitLoop host fuel' startTime timeout now polled = Some run.
Proof.
  induction fuel as [|fuel IH]; intros fuel' now polled run Hle H; [discriminate|].
  destruct fuel' as [|fuel']; [lia|].
  cbn [waitLoop] in *.
  destruct (now - startTime <? timeout); [|exact H].
  destruct (fst (getConnectedDevices (shellAt host now) [])) as [devices|message];
    [|exact H].
  destruct (0 <? List.length devices)%nat; [exact H|].
  apply IH; [lia | exact H].
Qed.

Example waitForDevice_late_device :
  waitForDevice Examples.lateDevice 0 5000 =
  Some {| answer := Returned true; polls := [0; 1043; 2086; 3129];
          finishedAt := 3169 |}.
Proof. reflexivity. Qed.

Example waitForDevice_gives_up :
  waitForDevice Examples.neverAttached 0 2500 =
  Some {| answer := Returned false; polls := [0; 1043; 2086]; finishedAt := 3129 |}.
Proof. reflexivity. Qed.

Lemma pollBudget_enough timeout :
  exists fuel, pollBudget timeout = S fuel /\ timeout <= 1000 * Z.of_nat fuel.
Proof.
  unfold pollBudget. exists (Z.to_nat (timeout / 1000) + 1)%nat.
  split; [lia|].
  destruct (Z.le_gt_cases 0 timeout) as [Hpos|Hneg]; [|lia].
  pose proof (Z.div_pos timeout 1000 Hpos ltac:(lia)).
  pose proof (Z.mul_succ_div_gt timeout 1000 ltac:(lia)).
  lia.
Qed.

(** The queries of one run of the loop follow one another on the loop's
    schedule, and a run that answers [false] ends where the schedule
    ends. *)
Lemma waitLoop_schedule host startTime timeout :
  forall fuel now polled run,
    waitLoop host fuel startTime timeout now polled = Some run ->
    exists added,
      polls run = (polled ++ added)%list /\
      Polling.scheduled host now added /\
      (answer run = Returned false ->
       finishedAt run = Polling.scheduleEnd host now added).
Proof.
  induction fuel as [|fuel IH]; intros now polled run H; [discriminate|].
  cbn [waitLoop] in H.
  destruct (now - startTime <? timeout).
  - destruct (fst (getConnectedDevices (shellAt host now) [])) as [devices|message].
    + destruct (0 <? List.length devices)%nat.
      * inversion H; subst run; clear H. exists [now]. cbn.
        repeat split. discriminate.
      * apply IH in H as (added & Hp & Hs & He).
        exists (now :: added). split; [now rewrite Hp, <- app_assoc|].
        split; [split; [reflexivity | exact Hs] | exact He].
    + inversion H; subst run; clear H. exists [now]. cbn.
      repeat split. discriminate.
  - inversion H; subst run; clear H. exists []. cbn.
    rewrite app_nil_r. repeat split.
Qed.

(** C6, as the specification states it, fails: with a timeout of 4200 ms
    and a phone that shows up after four seconds, the query that finds the
    phone is launched 4172 ms after the call, and [true] is returned when
    that query ends, 4212 ms after the call: after the timeout has elapsed.
    The queries are 1043 ms apart, not 1000. *)
Lemma device_found_after_the_timeout :
  waitForDevice Polling.phoneAt4000 0 4200 =
    Some {| answer := Returned true; polls := [0; 1043; 2086; 3129; 4172];
            finishedAt := 4212 |} /\
  4200 < 4212 - 0.
Proof. split; [reflexivity | lia]. Qed.

(** C6, amended.  [waitForDevice] always settles.  With a positive timeout
    its first query is made at the instant of the call.  After a query that
    reports no device it arms a timer of 1000 ms and queries again when the
    timer has fired, provided less than [timeout] milliseconds have then
    passed since the call; so two queries are never less than a second
    apart, and every query is launched strictly before the timeout has
    elapsed.  It resolves with [true] when a query reports a device, every
    earlier query having reported none, at the instant that query ends
    (which may be after the timeout).  It resolves with [false] at the first
    evaluation of the loop condition at which [timeout] milliseconds or more
    have passed; no query has then reported a device. *)
Theorem waitForDevice_polls_each_second (host : Host) (startTime timeout : Z) :
  exists run,
    waitForDevice host startTime timeout = Some run /\
    (forall fuel, (pollBudget timeout <= fuel)%nat ->
       waitLoop host fuel startTime timeout startTime [] = Some run) /\
    (0 < timeout -> hd_error (polls run) = Some startTime) /\
    Polling.scheduled host startTime (polls run) /\
    spacedFrom 1000 startTime (polls run) /\
    Forall (fun t => t - startTime < timeout) (polls run) /\
    ((answer run = Returned true /\
      exists earlier t,
        polls run = (earlier ++ [t])%list /\
        Forall (fun u => devicesAt host u = []) earlier /\
        devicesAt host t <> [] /\
        finishedAt run = t + Z.of_N (execTime host t))
     \/
     (answer run = Returned false /\
      Forall (fun u => devicesAt host u = []) (polls run) /\
      finishedAt run = Polling.scheduleEnd host startTime (polls run) /\
      timeout <= finishedAt run - startTime)).
Proof.
  destruct (pollBudget_enough timeout) as (fuel0 & Hb & Hle).
  destruct (waitForDevice host startTime timeout) as [run|] eqn:E.
  - exists run. split; [reflexivity|].
    split; [intros fuel Hf; eapply waitLoop_more_fuel; [exact Hf | exact E]|].
    pose proof (waitLoop_schedule _ _ _ _ _ _ _ E) as (added' & Hp' & Hsch & Hend).
    apply waitLoop_facts in E as (added & Hp & [Hs Hbt Ho]).
    cbn [app] in Hp, Hp'. rewrite Hp' in Hp. subst added'. rewrite Hp'.
    split.
    + intros Hpos. destruct added as [|t later].
      * exfalso. destruct Ho as [(_ & earlier & t & Hnil & _) | (Ha & _ & Hto & _)].
        -- destruct earlier; discriminate.
        -- rewrite (Hend Ha) in Hto. cbn in Hto. lia.
      * destruct Hsch as [-> _]. reflexivity.
    + repeat split; auto.
      destruct Ho as [Ho | (Ha & Hn & Hto & _)]; [left; exact Ho | right; auto].
  - exfalso. unfold waitForDevice in E. rewrite Hb in E.
    revert E. apply waitLoop_enough_fuel. lia.
Qed.

(** C10.  With a timeout of zero or less the loop condition fails at once:
    [waitForDevice] resolves with [false] at the instant it was called and
    the device list is never queried. *)
Theorem waitForDevice_nonpositive_timeout (host : Host) (startTime timeout : Z) :
  timeout <= 0 ->
  waitForDevice host startTime timeout =
  Some {| answer := Returned false; polls := []; finishedAt := startTime |}.
Proof.
  intros Hle. unfold waitForDevice, pollBudget.
  rewrite Nat.add_comm. cbn [Nat.add waitLoop].
  destruct (startTime - startTime <? timeout) eqn:Hlt; [|reflexivity].
  apply Z.ltb_lt in Hlt. lia.
Qed.

(** C10 at a host with two phones attached: they are listed, and still the
    answer is [false]. *)
Lemma waitForDevice_nonpositive_timeout_witness :
  (0 <= 0) /\
  devicesAt Examples.attached 5 = ["abc123"; "def456"] /\
  waitForDevice Examples.attached 5 0 =
  Some {| answer := Returned false; polls := []; finishedAt := 5 |}.
Proof.
  split; [lia|]. split; [vm_compute; reflexivity|].
  apply (waitForDevice_nonpositive_timeout Examples.attached 5 0). lia.
Defined.

End WaitFacts.

(** ** The radio flash route *)

Module FlashFacts.
Import JS RadioFlashRoute.

(** C1, as the specification states it, fails: a flash that reported 60
    percent while flashing and then resolved with [false] ends its stream
    with a frame whose [progress] is 0 and which has no [error]. *)
Lemma failed_flash_final_event_resets_progress :
  lastKnownProgress Examples.failsWhileFlashing = Some 60%Z /\
  POST (fun _ _ => Examples.failsWhileFlashing)
       (fun _ => Returned None) (fun _ => Returned None)
       {| action := Some "flash"; firmwarePath := Some "/tmp/radio.img";
          deviceId := Some "abc123"; firmwareId := None |} =
  EventStream
    [ {| stage := "flashing"; progress := 60;
         message := "Flashing radio firmware..."; success := None; error := None |};
      {| stage := "error"; progress := 0; message := "Flash operation failed";
         success := Some false; error := None |} ].
Proof. split; reflexivity. Qed.

(** C1, amended.  Every flash request with a firmware path is answered with
    a stream that relays the progress values and then ends with one frame
    built by the route.  That last frame always has a [success] boolean.
    When the flash resolves with [true] it has [progress = 100] and stage
    [complete]; when the flash resolves with [false] or rejects it has
    [success = false], [progress = 0] and stage [error], and it has an
    [error] only when the flash rejected: the rejection's message. *)
Theorem final_event_of_flash
        (flashRadioFirmware : string -> option string -> FlashRun)
        (getCurrentRadioVersion backupCurrentRadio : option string -> Outcome (option string))
        (body : Body) (path : string) :
  action body = Some "flash" ->
  firmwarePath body = Some path ->
  nonEmpty path = true ->
  exists final,
    POST flashRadioFirmware getCurrentRadioVersion backupCurrentRadio body =
    EventStream (emitted (flashRadioFirmware path (deviceId body)) ++ [final])%list /\
    match settled (flashRadioFirmware path (deviceId body)) with
    | Returned true =>
        success final = Some true /\ progress final = 100%Z /\
        stage final = "complete" /\ error final = None
    | Returned false =>
        success final = Some false /\ progress final = 0%Z /\
        stage final = "error" /\ error final = None
    | Threw message =>
        success final = Some false /\ progress final = 0%Z /\
        stage final = "error" /\ error final = Some message
    end.
Proof.
  intros Ha Hp Hne. unfold POST. rewrite Ha, Hp, Hne. cbn [String.eqb Ascii.eqb Bool.eqb].
  unfold flashFirmware. eexists. split; [reflexivity|].
  destruct (settled (flashRadioFirmware path (deviceId body))) as [[|]|message];
    cbn; repeat split.
Qed.

(** C1, amended, at a flash that fails while flashing. *)
Lemma final_event_of_flash_witness :
  exists final,
    POST (fun _ _ => Examples.failsWhileFlashing)
         (fun _ => Returned None) (fun _ => Returned None)
         {| action := Some "flash"; firmwarePath := Some "/tmp/radio.img";
            deviceId := Some "abc123"; firmwareId := None |} =
    EventStream (emitted Examples.failsWhileFlashing ++ [final])%list /\
    success final = Some false /\ progress final = 0%Z /\
    stage final = "error" /\ error final = None.
Proof.
  apply (final_event_of_flash (fun _ _ => Examples.failsWhileFlashing)
           (fun _ => Returned None) (fun _ => Returned None)
           {| action := Some "flash"; firmwarePath := Some "/tmp/radio.img";
              deviceId := Some "abc123"; firmwareId := None |} "/tmp/radio.img");
    reflexivity.
Defined.

End FlashFacts.

(** ** The session registry *)

Module OrchestratorFacts.
Import FlashOrchestrator.

Lemma activeCount_app device reg reg' :
  activeCount device (reg ++ reg')%list =
  activeCount device reg + activeCount device reg'.
Proof. unfold activeCount. now rewrite filter_app, length_app. Qed.

Lemma activeSession_none_count device reg :
  activeSession device reg = None -> activeCount device reg = 0.
Proof.
  unfold activeSession, activeCount. induction reg as [|s reg IH]; simpl; [reflexivity|].
  destruct (isActiveFor device s); [discriminate | exact IH].
Qed.

Lemma activeSession_some device reg session :
  activeSession device reg = Some session ->
  In session reg /\ deviceId session = device /\ isTerminal (stage session) = false.
Proof.
  unfold activeSession. intros H. apply find_some in H as [Hin Hact].
  unfold isActiveFor in Hact. apply andb_true_iff in Hact as [Hd Ht].
  apply String.eqb_eq in Hd. apply negb_true_iff in Ht. auto.
Qed.

Lemma isActiveFor_other device other session :
  deviceId session = device -> other <> device -> isActiveFor other session = false.
Proof.
  intros <- Hne. unfold isActiveFor.
  destruct (String.eqb_spec (deviceId session) other); [congruence | reflexivity].
Qed.

(** Updating the active session of a device never makes a session active. *)
Lemma updateActive_count device f other reg :
  (forall s, deviceId (f s) = deviceId s) ->
  (forall s, isTerminal (stage s) = true -> isTerminal (stage (f s)) = true) ->
  activeCount other (updateActive device f reg) <= activeCount other reg.
Proof.
  intros Hid Hterm. unfold activeCount, updateActive.
  induction reg as [|s reg IH]; simpl; [lia|].
  destruct (isActiveFor device s) eqn:Hs.
  - assert (Himp : isActiveFor other (f s) = true -> isActiveFor other s = true).
    { unfold isActiveFor in *. rewrite Hid. intros H.
      apply andb_true_iff in H as [H1 H2]. rewrite H1. simpl.
      apply andb_true_iff in Hs as [_ Hs]. exact Hs. }
    destruct (isActiveFor other (f s)) eqn:Hf.
    + rewrite (Himp eq_refl). simpl. lia.
    + destruct (isActiveFor other s); simpl; lia.
  - destruct (isActiveFor other s); simpl; lia.
Qed.

Lemma handle_keeps_invariant reg r :
  (forall device, activeCount device reg <= 1) ->
  forall device, activeCount device (handle reg r) <= 1.
Proof.
  intros Hinv device. destruct r as [d now | d percent | d error]; simpl.
  - unfold startFlash. destruct (activeSession d reg) as [s|] eqn:E; simpl.
    + apply Hinv.
    + rewrite activeCount_app. unfold activeCount at 2. simpl.
      destruct (String.eqb_spec d device) as [->|Hne].
      * rewrite (activeSession_none_count _ _ E). simpl.
        destruct (isActiveFor device _); simpl; lia.
      * rewrite (isActiveFor_other d device); [|reflexivity|congruence].
        simpl. specialize (Hinv device). lia.
  - unfold advance. etransitivity; [apply updateActive_count|apply Hinv].
    + reflexivity.
    + intros s Hs. simpl. destruct (stage s); simpl in *; congruence.
  - unfold fail. etransitivity; [apply updateActive_count|apply Hinv].
    + reflexivity.
    + reflexivity.
Qed.

Lemma run_invariant requests :
  forall device, activeCount device (run requests) <= 1.
Proof.
  unfold run. rewrite <- (rev_involutive requests).
  induction (rev requests) as [|r rs IH]; simpl.
  - intros device. unfold activeCount. simpl. lia.
  - rewrite fold_left_app. simpl. apply handle_keeps_invariant. exact IH.
Qed.

(** C8.  Whatever requests the orchestrator has handled, a device has at
    most one session that is not terminal.  A request to start a flash for
    a device that has such a session is refused at once with an error that
    names the reason; the registry, and so the existing session, stays as it
    was, and no further session is recorded.  The route passes the refusal
    on as the only frame of the stream.  A device with no such session gets
    a new session in stage [Idle]. *)
Theorem one_active_session_per_device (requests : list Request)
        (device : string) (now : Z) :
  activeCount device (run requests) <= 1 /\
  (forall session,
     activeSession device (run requests) = Some session ->
     exists error,
       startFlash device now (run requests) = (Rejected error, run requests) /\
       error <> "" /\
       forall path,
         RadioFlashRoute.flashFirmware (fun _ _ => refusedRun error) path (Some device) =
         [RadioFlashRoute.errorResult error]) /\
  (activeSession device (run requests) = None ->
   exists session,
     startFlash device now (run requests) =
       (Started session, (run requests ++ [session])%list) /\
     deviceId session = device /\ stage session = Idle /\
     activeCount device (run requests ++ [session])%list = 1).
Proof.
  split; [apply run_invariant|]. split.
  - intros session Hs. unfold startFlash. rewrite Hs.
    eexists. split; [reflexivity|]. split; [discriminate|]. reflexivity.
  - intros Hn. unfold startFlash. rewrite Hn.
    eexists. split; [reflexivity|]. repeat split.
    rewrite activeCount_app, (activeSession_none_count _ _ Hn).
    unfold activeCount, isActiveFor. simpl. now rewrite String.eqb_refl.
Qed.

End OrchestratorFacts.

(** ** The version sort of the search route *)

Module SearchFacts.
Import RadioSearchRoute.



Lemma compareKeys_antisym w :
  forall a b, compareKeys w b a = CompOpp (compareKeys w a b).
Proof.
  induction a as [|x a IH]; destruct b as [|y b]; simpl; try reflexivity.
  rewrite (N.compare_antisym (w x) (w y)).
  destruct (N.compare (w x) (w y)); simpl; auto.
Qed.

(** Strings that compare equal can stand for one another. *)
Lemma compareKeys_eq_l w :
  forall a b, compareKeys w a b = Eq ->
              forall c, compareKeys w a c = compareKeys w b c.
Proof.
  induction a as [|x a IH]; destruct b as [|y b]; simpl; intros H c;
    try discriminate; [reflexivity|].
  destruct (N.compare_spec (w x) (w y)) as [Hxy| |]; try discriminate.
  destruct c as [|z c]; [reflexivity|]. rewrite Hxy.
  destruct (N.compare (w y) (w z)); auto.
Qed.

Lemma compareKeys_lt_trans w :
  forall a b c, compareKeys w a b = Lt -> compareKeys w b c = Lt ->
                compareKeys w a c = Lt.
Proof.
  induction a as [|x a IH]; destruct b as [|y b]; destruct c as [|z c]; simpl;
    intros H1 H2; try discriminate; try reflexivity.
  destruct (N.compare_spec (w x) (w y)) as [Hxy|Hxy|Hxy]; try discriminate;
    destruct (N.compare_spec (w y) (w z)) as [Hyz|Hyz|Hyz]; try discriminate.
  - rewrite Hxy, Hyz, N.compare_refl. eauto.
  - replace (N.compare (w x) (w z)) with Lt; [reflexivity|].
    symmetry. apply N.compare_lt_iff. lia.
  - replace (N.compare (w x) (w z)) with Lt; [reflexivity|].
    symmetry. apply N.compare_lt_iff. lia.
  - replace (N.compare (w x) (w z)) with Lt; [reflexivity|].
    symmetry. apply N.compare_lt_iff. lia.
Qed.

Lemma localeCompare_antisym a b : localeCompare b a = (- localeCompare a b)%Z.
Proof.
  unfold localeCompare.
  rewrite (compareKeys_antisym primaryWeight a b),
          (compareKeys_antisym caseWeight a b).
  destruct (compareKeys primaryWeight a b); simpl; try reflexivity.
  destruct (compareKeys caseWeight a b); reflexivity.
Qed.

Lemma localeCompare_le_cases a b :
  (localeCompare a b <= 0)%Z <->
  compareKeys primaryWeight a b = Lt \/
  (compareKeys primaryWeight a b = Eq /\ compareKeys caseWeight a b <> Gt).
Proof.
  unfold localeCompare.
  destruct (compareKeys primaryWeight a b); simpl.
  - destruct (compareKeys caseWeight a b); simpl; split; intros H;
      try lia; try (right; split; [reflexivity | discriminate]).
    destruct H as [H | [_ H]]; congruence.
  - split; [left; reflexivity | lia].
  - split; [lia|]. intros [H | [H _]]; discriminate.
Qed.

Lemma compareKeys_not_gt_trans w a b c :
  compareKeys w a b <> Gt -> compareKeys w b c <> Gt -> compareKeys w a c <> Gt.
Proof.
  intros H1 H2.
  destruct (compareKeys w a b) eqn:Eab; [| |congruence].
  - rewrite (compareKeys_eq_l w a b Eab). exact H2.
  - destruct (compareKeys w b c) eqn:Ebc; [| |congruence].
    + assert (Ecb : compareKeys w c b = Eq)
        by (rewrite compareKeys_antisym, Ebc; reflexivity).
      assert (Eac : compareKeys w c a = compareKeys w b a)
        by (apply compareKeys_eq_l; exact Ecb).
      rewrite (compareKeys_antisym w a c), (compareKeys_antisym w a b), Eab in Eac.
      destruct (compareKeys w a c); simpl in Eac; congruence.
    + rewrite (compareKeys_lt_trans w a b c Eab Ebc). discriminate.
Qed.

Lemma localeCompare_trans a b c :
  (localeCompare a b <= 0)%Z -> (localeCompare b c <= 0)%Z ->
  (localeCompare a c <= 0)%Z.
Proof.
  rewrite !localeCompare_le_cases.
  intros [H1 | [H1 K1]] [H2 | [H2 K2]].
  - left. eapply compareKeys_lt_trans; eassumption.
  - left. assert (E : compareKeys primaryWeight c b = Eq)
      by (rewrite compareKeys_antisym, H2; reflexivity).
    pose proof (compareKeys_eq_l _ _ _ E a) as Hs.
    rewrite (compareKeys_antisym _ a c), (compareKeys_antisym _ a b), H1 in Hs.
    destruct (compareKeys primaryWeight a c); simpl in Hs; congruence.
  - left. rewrite (compareKeys_eq_l _ _ _ H1). exact H2.
  - right. split.
    + rewrite (compareKeys_eq_l _ _ _ H1). exact H2.
    + eapply compareKeys_not_gt_trans; eassumption.
Qed.














End SearchFacts.

(** * Further properties of the code *)

(** ** The device list *)

Module DeviceListFacts.
Import JS FastbootManager FastbootQueries StringFacts FastbootFacts.

Lemma split_parts_avoid_separator sep :
  forall s x, In x (split sep s) ->
              allChars (fun c => negb (Ascii.eqb c sep)) x = true.
Proof.
  induction s as [|c s IH]; simpl; intros x Hin.
  - destruct Hin as [<-|[]]. reflexivity.
  - destruct (Ascii.eqb c sep) eqn:Hc.
    + destruct Hin as [<-|Hin]; [reflexivity | now apply IH].
    + destruct (split sep s) as [|h t] eqn:Hs.
      * destruct Hin as [<-|[]]. simpl. now rewrite Hc.
      * destruct Hin as [<-|Hin].
        -- simpl. rewrite Hc. simpl. apply IH. now left.
        -- apply IH. now right.
Qed.

Lemma split_parts_keep p sep :
  forall s x, allChars p s = true -> In x (split sep s) -> allChars p x = true.
Proof.
  induction s as [|c s IH]; simpl; intros x Hall Hin.
  - destruct Hin as [<-|[]]. reflexivity.
  - apply andb_true_iff in Hall as [Hc Hall].
    destruct (Ascii.eqb c sep).
    + destruct Hin as [<-|Hin]; [reflexivity | now apply IH].
    + destruct (split sep s) as [|h t] eqn:Hs.
      * destruct Hin as [<-|[]]. simpl. now rewrite Hc.
      * destruct Hin as [<-|Hin].
        -- simpl. rewrite Hc. simpl. apply IH; [exact Hall | now left].
        -- apply IH; [exact Hall | now right].
Qed.

Lemma split_nonempty sep s : split sep s <> [].
Proof.
  destruct s as [|c s]; simpl; [discriminate|].
  destruct (Ascii.eqb c sep); [discriminate|].
  destruct (split sep s); discriminate.
Qed.

Lemma split_head_in sep s : In (hd "" (split sep s)) (split sep s).
Proof.
  pose proof (split_nonempty sep s). destruct (split sep s); [contradiction|].
  now left.
Qed.

Lemma split_append_separator sep :
  forall a b, allChars (fun c => negb (Ascii.eqb c sep)) a = true ->
              split sep (a ++ String sep b) = a :: split sep b.
Proof.
  induction a as [|c a IH]; simpl; intros b Hall.
  - now rewrite Ascii.eqb_refl.
  - apply andb_true_iff in Hall as [Hc Hall].
    apply negb_true_iff in Hc. rewrite Hc, (IH b Hall). reflexivity.
Qed.

Lemma parseDeviceList_clean stdout :
  Forall (fun id => isDeviceId id = true) (parseDeviceList stdout).
Proof.
  unfold parseDeviceList. apply Forall_forall. intros id Hin.
  apply filter_In in Hin as [Hin Hne].
  apply in_map_iff in Hin as (line & <- & Hline).
  apply filter_In in Hline as [Hline _].
  unfold isDeviceId. rewrite Hne. simpl.
  pose proof (split_parts_avoid_separator "010"%char _ _ Hline) as Hnl.
  pose proof (split_head_in "009"%char line) as Hhd.
  pose proof (split_parts_avoid_separator "009"%char _ _ Hhd) as Htab.
  pose proof (split_parts_keep _ "009"%char _ _ Hnl Hhd) as Hnl'.
  clear - Htab Hnl'. induction (hd "" (split "009"%char line)) as [|c s IH];
    simpl in *; [reflexivity|].
  apply andb_true_iff in Htab as [H1 Htab]. apply andb_true_iff in Hnl' as [H2 Hnl'].
  now rewrite H1, H2, IH.
Qed.

(** X1.  [getConnectedDevices] never rejects and runs one command.  When
    that command fails the list is empty.  Every id in the list is a
    non-empty string without a tab or a line feed. *)
Theorem getConnectedDevices_ids_are_clean (sh : Shell) (log : Log) :
  exists devices,
    getConnectedDevices sh log =
      (Returned devices, (log ++ ["fastboot devices"])%list) /\
    (forall message, sh "fastboot devices" = Threw message -> devices = []) /\
    Forall (fun id => isDeviceId id = true) devices.
Proof.
  rewrite getConnectedDevices_run. eexists. split; [reflexivity|]. split.
  - intros message ->. reflexivity.
  - destruct (sh "fastboot devices") as [[stdout stderr]|message].
    + apply parseDeviceList_clean.
    + constructor.
Qed.

Lemma includes_append_prefix sub :
  forall a b, prefix sub b = true -> includes (a ++ b) sub = true.
Proof.
  induction a as [|c a IH]; intros b Hp; cbn [append].
  - destruct b; cbn [includes]; rewrite Hp; reflexivity.
  - cbn [includes]. rewrite (IH b Hp). apply orb_true_r.
Qed.

Lemma trim_keeps_text a c b :
  isWhiteSpace c = false -> nonEmpty (trim (a ++ String c b)) = true.
Proof.
  intros Hc. destruct (trim_spec (a ++ String c b)) as (l & r & Heq & Hl & Hr).
  destruct (trim (a ++ String c b)) as [|x t]; [|reflexivity].
  exfalso. simpl in Heq.
  assert (Hall : allChars isWhiteSpace (a ++ String c b) = true).
  { rewrite Heq, allChars_append, Hl, Hr. reflexivity. }
  rewrite allChars_append in Hall. simpl in Hall. rewrite Hc in Hall.
  rewrite andb_false_r in Hall. discriminate.
Qed.

Lemma isDeviceId_parts id :
  isDeviceId id = true ->
  nonEmpty id = true /\
  allChars (fun c => negb (Ascii.eqb c "009"%char)) id = true /\
  allChars (fun c => negb (Ascii.eqb c "010"%char)) id = true.
Proof.
  unfold isDeviceId. intros H. apply andb_true_iff in H as [Hne Hall].
  split; [exact Hne|]. clear Hne.
  induction id as [|c id IH]; simpl in *; [auto|].
  apply andb_true_iff in Hall as [Hc Hall]. apply andb_true_iff in Hc as [H1 H2].
  destruct (IH Hall) as [I1 I2]. now rewrite H1, H2, I1, I2.
Qed.

Lemma parseDeviceList_of_listing ids :
  Forall (fun id => isDeviceId id = true) ids ->
  parseDeviceList (deviceListing ids) = ids.
Proof.
  induction 1 as [|id ids Hid _ IH]; [reflexivity|].
  destruct (isDeviceId_parts id Hid) as (Hne & Htab & Hnl).
  unfold parseDeviceList in *. cbn [deviceListing].
  set (line := id ++ String "009"%char "fastboot").
  assert (Hline : allChars (fun c => negb (Ascii.eqb c "010"%char)) line = true).
  { subst line. rewrite allChars_append, Hnl. reflexivity. }
  change (id ++ String "009"%char "fastboot" ++ String "010"%char (deviceListing ids))
    with (id ++ (String "009"%char "fastboot") ++ String "010"%char (deviceListing ids)).
  rewrite <- append_assoc. fold line.
  rewrite (split_append_separator "010"%char line _ Hline).
  cbn [filter].
  assert (Hkeep : nonEmpty (trim line) && includes line "fastboot" = true).
  { apply andb_true_iff. split.
    - subst line. change (String "009"%char "fastboot")
        with (String "009"%char "" ++ String "f"%char "astboot").
      rewrite <- append_assoc. now apply trim_keeps_text.
    - subst line. change (String "009"%char "fastboot")
        with (String "009"%char "" ++ "fastboot").
      rewrite <- append_assoc. now apply includes_append_prefix. }
  rewrite Hkeep. cbn [map filter].
  subst line. rewrite (split_append_separator "009"%char id "fastboot" Htab).
  cbn [hd]. rewrite Hne. f_equal. exact IH.
Qed.

(** X2.  Reading back what [fastboot devices] prints: when the command
    prints one line [id <tab> fastboot] per device, [getConnectedDevices]
    returns exactly those ids, in that order. *)
Theorem getConnectedDevices_reads_listing (sh : Shell) (ids : list string)
        (stderr : string) (log : Log) :
  Forall (fun id => isDeviceId id = true) ids ->
  sh "fastboot devices" = Returned (deviceListing ids, stderr) ->
  getConnectedDevices sh log = (Returned ids, (log ++ ["fastboot devices"])%list).
Proof.
  intros Hids Hsh. rewrite getConnectedDevices_run, Hsh.
  now rewrite parseDeviceList_of_listing.
Qed.

(** X2 at the host with two phones. *)
Lemma getConnectedDevices_reads_listing_witness :
  getConnectedDevices Examples.twoDevices [] =
  (Returned ["abc123"; "def456"], ["fastboot devices"]).
Proof.
  apply (getConnectedDevices_reads_listing Examples.twoDevices
           ["abc123"; "def456"] "" []).
  - repeat constructor.
  - reflexivity.
Defined.

Lemma orElse_not_empty v dflt : dflt <> "" -> orElse v dflt <> "".
Proof.
  intros Hd. unfold orElse. destruct v as [[|c s]|]; simpl; try assumption.
  discriminate.
Qed.

(** X3.  Whenever [getBootloaderInfo] resolves with information, its
    [version], [variant] and [serialNumber] are non-empty strings (a
    variable that is missing or empty reads [Unknown]), and [secureboot] is
    true exactly when [getVariable] gives [yes] for [secure]. *)
Theorem getBootloaderInfo_fields_filled (sh : Shell) (deviceId : option string)
        (log : Log) (info : BootloaderInfo) :
  fst (getBootloaderInfo sh deviceId log) = Returned (Some info) ->
  version info <> "" /\ variant info <> "" /\ serialNumber info <> "" /\
  (secureboot info = true <->
   fst (getVariable sh "secure" (devicePrefixOf deviceId) log) = Returned (Some "yes")).
Proof.
  pose proof (getBootloaderInfo_run sh deviceId log) as Hrun.
  cbv beta zeta in Hrun.
  rewrite !getVariable_run, getConnectedDevices_run in Hrun. cbn [fst] in Hrun.
  rewrite Hrun, getVariable_run. cbn [fst].
  destruct (match sh "fastboot devices" with
            | Returned (stdout, _) => parseDeviceList stdout
            | Threw _ => []
            end) as [|d ds]; cbn [fst]; [discriminate|].
  intros H. injection H as <-. cbn [version variant serialNumber secureboot].
  repeat split; try (apply orElse_not_empty; discriminate).
  - intros Hs.
    destruct (match sh (getvarCommand "secure" (devicePrefixOf deviceId)) with
              | Returned (stdout, stderr) => extractVariable "secure" (stdout ++ stderr)
              | Threw _ => None
              end) as [v|]; [|discriminate].
    cbn [isYes] in Hs. apply String.eqb_eq in Hs. now subst.
  - intros Hs. injection Hs as ->. reflexivity.
Qed.

(** X3 at the host with two phones. *)
Lemma getBootloaderInfo_fields_filled_witness :
  exists info,
    fst (getBootloaderInfo Examples.twoDevices None []) = Returned (Some info) /\
    (version info <> "" /\ variant info <> "" /\ serialNumber info <> "" /\
     (secureboot info = true <->
      fst (getVariable Examples.twoDevices "secure" (devicePrefixOf None) []) =
        Returned (Some "yes"))).
Proof.
  eexists. split; [reflexivity|].
  apply (getBootloaderInfo_fields_filled Examples.twoDevices None []).
  reflexivity.
Defined.

End DeviceListFacts.

(** ** Reading variables *)

Module VariableFacts.
Import JS JSLogic FastbootManager FastbootQueries StringFacts FastbootFacts.

(** A quantifier whose class cannot go on, and whose continuation accepts
    what is left, takes all it can. *)
Lemma repeatClass_greedy k cont :
  forall taken rest atLeast caps,
    allChars (inClass k) taken = true ->
    match rest with
    | EmptyString => True
    | String c _ => inClass k c = false
    end ->
    atLeast <= String.length taken ->
    cont rest = Some caps ->
    repeatClass k cont atLeast (taken ++ rest) = Some (taken, caps).
Proof.
  induction taken as [|c t IH]; intros rest atLeast caps Hall Hrest Hlen Hk.
  - simpl in Hlen. assert (atLeast = 0) by lia. subst.
    destruct rest as [|d r]; simpl; rewrite Hk; [reflexivity|].
    now rewrite Hrest.
  - simpl in Hall, Hlen. apply andb_true_iff in Hall as [Hc Hall].
    cbn [append repeatClass]. rewrite Hc.
    rewrite (IH rest (pred atLeast) caps Hall Hrest ltac:(lia) Hk). reflexivity.
Qed.

Lemma variablePattern_exact variable spaces value rest :
  allChars isWhiteSpace spaces = true ->
  value <> "" ->
  startsWithText value = true ->
  allChars (fun c => negb (isLineTerminator c)) value = true ->
  endsLine rest = true ->
  matchHere (variablePattern variable)
            (variable ++ ":" ++ spaces ++ value ++ rest) = Some [value].
Proof.
  intros Hsp Hne Hstart Hval Hend. unfold variablePattern.
  apply matchHere_literal. eexists. split; [reflexivity|].
  change (":" ++ spaces ++ value ++ rest) with (String ":" (spaces ++ value ++ rest)).
  rewrite matchHere_lit, Ascii.eqb_refl, matchHere_rep.
  rewrite (repeatClass_greedy Space _ spaces (value ++ rest) 0 [value]); auto.
  - destruct value as [|c v]; [congruence|]. simpl in *.
    now apply negb_true_iff in Hstart.
  - lia.
  - rewrite matchHere_rep.
    rewrite (repeatClass_greedy Dot _ value rest 1 []); auto.
    + destruct rest as [|c r]; [exact I|]. simpl in *. now rewrite Hend.
    + destruct value; [congruence | simpl; lia].
Qed.

Lemma regexMatch_skip pat s :
  forall before,
    (forall p q, before = p ++ q -> q <> "" -> matchHere pat (q ++ s) = None) ->
    regexMatch pat (before ++ s) = regexMatch pat s.
Proof.
  induction before as [|c b IH]; intros Hnone; [reflexivity|].
  cbn [append regexMatch].
  pose proof (Hnone "" (String c b) eq_refl ltac:(discriminate)) as Hhere.
  cbn [append] in Hhere. rewrite Hhere.
  apply IH. intros p q -> Hq. apply (Hnone (String c p) q); [reflexivity | exact Hq].
Qed.

Lemma append_prefix_split :
  forall b a x y, a ++ x = b ++ y -> String.length b <= String.length a ->
                  exists c, a = b ++ c.
Proof.
  induction b as [|d b IH]; intros a x y Heq Hlen.
  - now exists a.
  - destruct a as [|e a]; simpl in Hlen; [lia|].
    simpl in Heq. inversion Heq; subst.
    destruct (IH a x y H1 ltac:(lia)) as (c & ->). now exists c.
Qed.

Lemma extractVariable_first_line variable before spaces value rest :
  firstOccurrence variable before ->
  allChars isWhiteSpace spaces = true ->
  value <> "" ->
  startsWithText value = true ->
  allChars (fun c => negb (isLineTerminator c)) value = true ->
  endsLine rest = true ->
  extractVariable variable (before ++ variable ++ ":" ++ spaces ++ value ++ rest)
  = Some (trim value).
Proof.
  intros Hfirst Hsp Hne Hstart Hval Hend. unfold extractVariable.
  rewrite regexMatch_skip.
  - destruct (variable ++ ":" ++ spaces ++ value ++ rest) eqn:E;
      cbn [regexMatch]; rewrite <- E;
      rewrite (variablePattern_exact variable spaces value rest); auto.
  - intros p q Hb Hq.
    destruct (matchHere (variablePattern variable)
                (q ++ variable ++ ":" ++ spaces ++ value ++ rest)) as [caps|] eqn:E;
      [|reflexivity].
    exfalso. apply variablePattern_sound in E as (sp & v & r & Heq & _).
    assert (Heq' : (q ++ variable ++ ":") ++ spaces ++ value ++ rest =
                   (variable ++ ":") ++ sp ++ v ++ r).
    { rewrite !append_assoc. exact Heq. }
    apply append_prefix_split in Heq' as (c & Hc).
    + assert (c = "").
      { apply (Hfirst p c). rewrite Hb, append_assoc, Hc, append_assoc.
        reflexivity. }
      subst c. apply (f_equal String.length) in Hc.
      rewrite !length_append in Hc. simpl in Hc.
      destruct q; [congruence | simpl in Hc; lia].
    + rewrite !length_append. lia.
Qed.

(** X4.  The value [getVariable] returns.  When the first place at which
    the output (standard output followed by standard error) holds the
    variable's name and a colon is followed by white space and then by text
    that runs to the end of its line, [getVariable] returns that text,
    trimmed; later lines do not matter. *)
Theorem getVariable_first_line_value (sh : Shell)
        (variable devicePrefix stdout stderr before spaces value rest : string)
        (log : Log) :
  plainName variable = true ->
  sh (getvarCommand variable devicePrefix) = Returned (stdout, stderr) ->
  stdout ++ stderr = before ++ variable ++ ":" ++ spaces ++ value ++ rest ->
  firstOccurrence variable before ->
  allChars isWhiteSpace spaces = true ->
  value <> "" ->
  startsWithText value = true ->
  allChars (fun c => negb (isLineTerminator c)) value = true ->
  endsLine rest = true ->
  fst (getVariable sh variable devicePrefix log) = Returned (Some (trim value)).
Proof.
  intros _ Hsh Hout Hfirst Hsp Hne Hstart Hval Hend.
  rewrite getVariable_run, Hsh, Hout. cbn [fst].
  now rewrite extractVariable_first_line.
Qed.

(** X4 at the host with two phones: the answer is on standard error and a
    second line follows it. *)
Lemma getVariable_first_line_value_witness :
  fst (getVariable Examples.twoDevices "unlocked" "" []) = Returned (Some "yes").
Proof.
  apply (getVariable_first_line_value Examples.twoDevices "unlocked" ""
           "" ("unlocked: yes" ++ Examples.newline ++
               "Finished. Total time: 0.001s" ++ Examples.newline)
           "" " " "yes"
           (Examples.newline ++ "Finished. Total time: 0.001s" ++ Examples.newline)
           []); try reflexivity.
  - intros b1 b2 H. apply (f_equal String.length) in H.
    rewrite !length_append in H. simpl in H.
    destruct b2; [reflexivity | simpl in H; lia].
  - discriminate.
Defined.

(** *** [getPartitionInfo] *)



Example getPartitionInfo_hyphenated_name :
  fst (getPartitionInfo MoreExamples.guacamole "boot_a" None []) = Returned (Some "raw") /\
  fst (getPartitionInfo MoreExamples.guacamole "boot-a" None []) = Returned None.
Proof. split; reflexivity. Qed.

(** *** [isOnePlusDevice] *)

(** X6.  [isOnePlusDevice] never rejects; it reads [product] and then
    [brand].  The answer is [true] exactly when the product, in lower case,
    contains [oneplus], [op] or [nord], or the brand, in lower case,
    contains [oneplus]; a variable that cannot be read counts for
    nothing. *)
Theorem isOnePlusDevice_markers (sh : Shell) (deviceId : option string) (log : Log) :
  exists verdict product brand,
    isOnePlusDevice sh deviceId log =
      (Returned verdict,
       (log ++ [getvarCommand "product" (devicePrefixOf deviceId);
                getvarCommand "brand" (devicePrefixOf deviceId)])%list) /\
    fst (getVariable sh "product" (devicePrefixOf deviceId) log) = Returned product /\
    fst (getVariable sh "brand" (devicePrefixOf deviceId) log) = Returned brand /\
    (verdict = true <->
     (exists p, product = Some p /\
                (includes (toLowerCase p) "oneplus" = true \/
                 includes (toLowerCase p) "op" = true \/
                 includes (toLowerCase p) "nord" = true)) \/
     (exists b, brand = Some b /\ includes (toLowerCase b) "oneplus" = true)).
Proof.
  unfold isOnePlusDevice, tryCatch, bind. rewrite !getVariable_run. cbn [fst].
  set (product := match sh (getvarCommand "product" (devicePrefixOf deviceId)) with
                  | Returned (stdout, stderr) =>
                      extractVariable "product" (stdout ++ stderr)
                  | Threw _ => None
                  end).
  set (brand := match sh (getvarCommand "brand" (devicePrefixOf deviceId)) with
                | Returned (stdout, stderr) =>
                    extractVariable "brand" (stdout ++ stderr)
                | Threw _ => None
                end).
  eexists. exists product, brand. unfold ret. rewrite <- app_assoc.
  split; [reflexivity|]. split; [reflexivity|]. split; [reflexivity|].
  destruct product as [p|], brand as [b|]; cbn [includesLowered].
  - destruct (includes (toLowerCase p) "oneplus") eqn:E1,
             (includes (toLowerCase b) "oneplus") eqn:E2,
             (includes (toLowerCase p) "op") eqn:E3,
             (includes (toLowerCase p) "nord") eqn:E4; cbn;
      split; intros H; try reflexivity; try discriminate;
      try (left; exists p; split; [reflexivity|]; tauto);
      try (right; exists b; split; [reflexivity|]; congruence);
      destruct H as [(p' & Hp & [H|[H|H]]) | (b' & Hb & H)]; congruence.
  - destruct (includes (toLowerCase p) "oneplus") eqn:E1,
             (includes (toLowerCase p) "op") eqn:E3,
             (includes (toLowerCase p) "nord") eqn:E4; cbn;
      split; intros H; try reflexivity; try discriminate;
      try (left; exists p; split; [reflexivity|]; tauto);
      destruct H as [(p' & Hp & [H|[H|H]]) | (b' & Hb & H)]; congruence.
  - destruct (includes (toLowerCase b) "oneplus") eqn:E2; cbn;
      split; intros H; try reflexivity; try discriminate;
      try (right; exists b; split; [reflexivity|]; congruence);
      destruct H as [(p' & Hp & _) | (b' & Hb & H)]; congruence.
  - cbn. split; [discriminate|].
    intros [(p' & Hp & _) | (b' & Hb & _)]; discriminate.
Qed.

Example isOnePlusDevice_examples :
  fst (isOnePlusDevice MoreExamples.guacamole None []) = Returned true /\
  fst (isOnePlusDevice Examples.noDevice None []) = Returned false.
Proof. split; reflexivity. Qed.

End VariableFacts.

(** ** More about [waitForDevice] *)

Module WaitMoreFacts.
Import JS FastbootManager FastbootFacts WaitFacts.

Local Open Scope Z_scope.

Lemma waitForDevice_settles host startTime timeout :
  exists run, waitForDevice host startTime timeout = Some run.
Proof.
  destruct (pollBudget_enough timeout) as (fuel0 & Hb & Hle).
  destruct (waitForDevice host startTime timeout) as [run|] eqn:E; [eauto|].
  exfalso. unfold waitForDevice in E. rewrite Hb in E.
  revert E. apply waitLoop_enough_fuel. lia.
Qed.

Lemma spaced_instants_fit gap :
  0 < gap ->
  forall instants earliest latest,
    spacedFrom gap earliest instants ->
    Forall (fun t => t < latest) instants ->
    instants <> [] ->
    earliest + gap * (Z.of_nat (List.length instants) - 1) < latest.
Proof.
  intros Hgap. induction instants as [|t later IH]; intros earliest latest Hs Hf Hne;
    [congruence|].
  simpl in Hs. destruct Hs as [Hlo Hs]. inversion Hf as [|? ? Ht Hlater]; subst.
  destruct later as [|u later'].
  - simpl. lia.
  - specialize (IH (t + gap) latest Hs Hlater ltac:(discriminate)).
    cbn [List.length] in *. lia.
Qed.

(** X7.  [waitForDevice] makes at most one query per started second of the
    timeout: with [n] queries made, [1000 * n < timeout + 1000] (and no
    query at all when the timeout is zero or less). *)
Theorem waitForDevice_query_count (host : Host) (startTime timeout : Z) :
  exists run,
    waitForDevice host startTime timeout = Some run /\
    1000 * Z.of_nat (List.length (polls run)) < Z.max timeout 0 + 1000.
Proof.
  destruct (waitForDevice_settles host startTime timeout) as (run & E).
  exists run. split; [exact E|].
  apply waitLoop_facts in E as (added & Hp & [Hs Hb _]).
  cbn [app] in Hp. rewrite Hp.
  destruct added as [|t later] eqn:Ha; [simpl; lia|].
  assert (Hfit : startTime + 1000 * (Z.of_nat (List.length (t :: later)) - 1)
                 < startTime + timeout).
  { apply (spaced_instants_fit 1000 ltac:(lia) (t :: later) startTime);
      [exact Hs | | discriminate].
    eapply Forall_impl; [|exact Hb]. cbv beta. intros; lia. }
  lia.
Qed.

(** X8.  A device that is listed when [waitForDevice] is called, with a
    positive timeout, is found by the first query: the promise resolves with
    [true] as soon as that query ends, and no timer is armed. *)
Theorem waitForDevice_finds_attached_device (host : Host) (startTime timeout : Z) :
  0 < timeout ->
  devicesAt host startTime <> [] ->
  waitForDevice host startTime timeout =
  Some {| answer := Returned true; polls := [startTime];
          finishedAt := startTime + Z.of_N (execTime host startTime) |}.
Proof.
  intros Hpos Hdev. unfold waitForDevice, pollBudget.
  rewrite Nat.add_comm. cbn [Nat.add waitLoop].
  replace (startTime - startTime <? timeout) with true
    by (symmetry; apply Z.ltb_lt; lia).
  unfold devicesAt in Hdev.
  rewrite getConnectedDevices_run in *. cbn [fst] in *.
  destruct (match shellAt host startTime "fastboot devices" with
            | Returned (stdout, _) => parseDeviceList stdout
            | Threw _ => []
            end) as [|d ds]; [congruence | reflexivity].
Qed.

(** X8 at a host with two phones attached. *)
Lemma waitForDevice_finds_attached_device_witness :
  waitForDevice Examples.attached 7 30000 =
  Some {| answer := Returned true; polls := [7]; finishedAt := 47 |}.
Proof.
  apply (waitForDevice_finds_attached_device Examples.attached 7 30000).
  - lia.
  - vm_compute. discriminate.
Defined.

Lemma waitLoop_longer_timeout host startTime timeout timeout' :
  timeout <= timeout' ->
  forall fuel now polled run,
    waitLoop host fuel startTime timeout now polled = Some run ->
    answer run = Returned true ->
    waitLoop host fuel startTime timeout' now polled = Some run.
Proof.
  intros Hle. induction fuel as [|fuel IH]; intros now polled run H Ha;
    [discriminate|].
  cbn [waitLoop] in *.
  destruct (now - startTime <? timeout) eqn:Hlt.
  - apply Z.ltb_lt in Hlt.
    replace (now - startTime <? timeout') with true
      by (symmetry; apply Z.ltb_lt; lia).
    destruct (fst (getConnectedDevices (shellAt host now) [])) as [devices|message];
      [|exact H].
    destruct (0 <? List.length devices)%nat; [exact H|].
    now apply IH.
  - inversion H; subst run. discriminate.
Qed.

(** X9.  A longer timeout never loses a device: when [waitForDevice]
    resolves with [true] for some timeout, it makes the same queries and
    resolves with [true] at the same instant for every longer timeout. *)
Theorem waitForDevice_longer_timeout (host : Host) (startTime timeout timeout' : Z)
        (run : WaitRun) :
  waitForDevice host startTime timeout = Some run ->
  answer run = Returned true ->
  timeout <= timeout' ->
  waitForDevice host startTime timeout' = Some run.
Proof.
  intros H Ha Hle. unfold waitForDevice in *.
  apply (waitLoop_more_fuel host startTime timeout' (pollBudget timeout)).
  - unfold pollBudget.
    pose proof (Z.div_le_mono timeout timeout' 1000 ltac:(lia) Hle). lia.
  - now apply (waitLoop_longer_timeout host startTime timeout timeout' Hle).
Qed.

(** X9 at a host where the phone shows up after two and a half seconds. *)
Lemma waitForDevice_longer_timeout_witness :
  waitForDevice Examples.lateDevice 0 60000 =
  Some {| answer := Returned true; polls := [0; 1043; 2086; 3129];
          finishedAt := 3169 |}.
Proof.
  apply (waitForDevice_longer_timeout Examples.lateDevice 0 5000 60000).
  - reflexivity.
  - reflexivity.
  - lia.
Defined.

End WaitMoreFacts.

(** ** More about the fastboot route *)

Module RouteFacts.
Import JS FastbootManager StringFacts FastbootFacts.

Lemma getPartitionInfo_run sh partition deviceId log :
  exists result,
    getPartitionInfo sh partition deviceId log =
    (Returned result,
     (log ++ [fullCommandOf ("getvar partition-type:" ++ partition)%string
                            deviceId])%list).
Proof.
  unfold getPartitionInfo, tryCatch, bind. rewrite executeCommand_run.
  destruct (sh _) as [[stdout stderr]|message]; cbn; eauto.
Qed.

(** What a request can lead to: an answer with no command run, or one
    command for the device the request names and the answer made of its
    outcome. *)
Lemma POST_shape sh fileSize body log :
  (exists response,
     FastbootRoute.POST sh fileSize body log = (Returned response, log) /\
     ((exists error, response = FastbootRoute.BadRequest error) \/
      (exists valid message,
         response = FastbootRoute.ValidateImageResponse valid message)))
  \/
  (exists response command,
     FastbootRoute.POST sh fileSize body log =
       (Returned response,
        (log ++ [fullCommandOf command (FastbootRoute.deviceId body)])%list) /\
     ((exists result message,
         response = FastbootRoute.CommandResponse result message) \/
      (exists info, response = FastbootRoute.PartitionInfoResponse info))).
Proof.
  unfold FastbootRoute.POST, FastbootRoute.flashWith, FastbootRoute.respond,
    tryCatch, bind, ret.
  unfold unlockBootloader, lockBootloader, flashRecovery, flashBoot, flashSystem,
    flashRadio, flashModem, flashPartition, erasePartition, formatPartition,
    rebootDevice, continueBootloader, validateImage, tryCatch, throw, ret.
  repeat (match goal with
          | |- context [if String.eqb ?a ?b then _ else _] =>
              destruct (String.eqb a b)
          | |- context [if negb ?a || negb ?b then _ else _] => destruct a, b
          | |- context [if negb ?b then _ else _] => destruct b
          | |- context [match fileSize ?p with _ => _ end] =>
              destruct (fileSize p) as [size|]
          | |- context [if (0 <? ?z)%Z then _ else _] => destruct (0 <? z)%Z
          end; cbn [negb orb]; cbv beta iota);
    rewrite ?executeCommand_run;
    try (left; eexists; split; [reflexivity|]; eauto; fail);
    try (right; eexists; eexists; split; [reflexivity|]; eauto; fail).
  destruct (getPartitionInfo_run sh
              (FastbootRoute.valueOf (FastbootRoute.infoPartition body))
              (FastbootRoute.deviceId body) log) as (info & ->).
  right. eexists. eexists. split; [reflexivity|]. eauto.
Qed.

Lemma prefix_append a b : prefix a (a ++ b) = true.
Proof.
  induction a as [|c a IH]; simpl; [now destruct b|].
  destruct (Ascii.ascii_dec c c); [exact IH | congruence].
Qed.


Lemma fullCommandOf_scoped command id :
  nonEmpty id = true ->
  fullCommandOf command (Some id) = ("fastboot -s " ++ id ++ " ") ++ command.
Proof.
  intros Hid. unfold fullCommandOf, devicePrefixOf. rewrite Hid.
  cbn [nonEmpty append]. now rewrite append_assoc.
Qed.



(** X11.  When the body of the request is an object that names a device,
    the command line [POST] hands to [execAsync], if it hands over one,
    starts with [fastboot -s <id> ].  The statement is about the beginning
    of the line only: the rest holds request fields as they came, and what
    the shell or [fastboot] makes of them is not part of it. *)
Theorem POST_scopes_to_named_device (sh : Shell) (fileSize : string -> option Z)
        (body : FastbootRoute.Body) (id : string) (log : Log) :
  FastbootRoute.deviceId body = Some id ->
  nonEmpty id = true ->
  exists response commands,
    FastbootRoute.POST sh fileSize body log =
      (Returned response, (log ++ commands)%list) /\
    Forall (fun command => prefix ("fastboot -s " ++ id ++ " ") command = true)
           commands.
Proof.
  intros Hdev Hid.
  destruct (POST_shape sh fileSize body log)
    as [(response & Hrun & _) | (response & command & Hrun & _)].
  - exists response, []. rewrite app_nil_r. split; [exact Hrun | constructor].
  - exists response, [fullCommandOf command (FastbootRoute.deviceId body)].
    split; [exact Hrun|]. constructor; [|constructor].
    rewrite Hdev, (fullCommandOf_scoped command id Hid). apply prefix_append.
Qed.

(** X11 at a request to flash the boot partition of the device [abc123]. *)
Lemma POST_scopes_to_named_device_witness :
  exists response commands,
    FastbootRoute.POST Examples.twoDevices Examples.anyImage
                       MoreExamples.flashBootImage [] =
      (Returned response, ([] ++ commands)%list) /\
    Forall (fun command => prefix ("fastboot -s " ++ "abc123" ++ " ") command = true)
           commands.
Proof.
  apply (POST_scopes_to_named_device Examples.twoDevices Examples.anyImage
           MoreExamples.flashBootImage "abc123" []); reflexivity.
Defined.

Example POST_flash_partition_example :
  FastbootRoute.POST Examples.twoDevices Examples.anyImage
                     MoreExamples.flashBootImage [] =
  (Returned (FastbootRoute.CommandResponse
               {| success := true; output := "OKAY" ++ Examples.newline;
                  error := None |} None),
   ["fastboot -s abc123 flash boot " ++ dquote ++ "boot.img" ++ dquote]).
Proof. reflexivity. Qed.

(** X12.  [flash-partition] looks at the image before it touches the
    device: when the file is missing or empty the answer is status 400 and
    no command is run; otherwise exactly the flash command is run. *)
Theorem flash_partition_checks_the_image (sh : Shell)
        (fileSize : string -> option Z) (body : FastbootRoute.Body)
        (partition imagePath : string) (log : Log) :
  FastbootRoute.action body = Some "flash-partition" ->
  FastbootRoute.partition body = Some partition ->
  FastbootRoute.imagePath body = Some imagePath ->
  nonEmpty partition = true ->
  nonEmpty imagePath = true ->
  match fileSize imagePath with
  | Some size =>
      if (0 <? size)%Z then
        snd (FastbootRoute.POST sh fileSize body log) =
        (log ++ [fullCommandOf ("flash " ++ partition ++ " " ++ dquote ++ imagePath
                                ++ dquote)%string
                               (FastbootRoute.deviceId body)])%list
      else
        FastbootRoute.POST sh fileSize body log =
        (Returned (FastbootRoute.BadRequest "Invalid or missing image file"), log)
  | None =>
      FastbootRoute.POST sh fileSize body log =
      (Returned (FastbootRoute.BadRequest "Invalid or missing image file"), log)
  end.
Proof.
  intros Ha Hp Hi Hpn Hin.
  unfold FastbootRoute.POST, tryCatch, bind, validateImage, throw, ret.
  rewrite Ha, Hp, Hi. cbn [FastbootRoute.valueOf String.eqb Ascii.eqb Bool.eqb truthy].
  rewrite Hpn, Hin. cbn [negb orb]. unfold tryCatch.
  destruct (fileSize imagePath) as [size|]; [|reflexivity].
  destruct (0 <? size)%Z; [|reflexivity].
  cbn [negb]. unfold FastbootRoute.respond, bind, flashPartition.
  rewrite executeCommand_run. reflexivity.
Qed.

(** X12 with no file on the host. *)
Lemma flash_partition_checks_the_image_witness :
  FastbootRoute.POST Examples.twoDevices MoreExamples.noImage
                     MoreExamples.flashBootImage [] =
  (Returned (FastbootRoute.BadRequest "Invalid or missing image file"), []).
Proof.
  apply (flash_partition_checks_the_image Examples.twoDevices MoreExamples.noImage
           MoreExamples.flashBootImage "boot" "boot.img" []); reflexivity.
Defined.

(** X13.  Only [flash-partition] and [validate-image] look at the file
    system: for every other action the answer and the command run are the
    same whatever files exist, so [flash-recovery], [flash-boot],
    [flash-system], [flash-radio] and [flash-modem] hand a path to
    [fastboot] without checking that the file is there. *)
Theorem other_actions_ignore_the_file_system (sh : Shell)
        (fileSize fileSize' : string -> option Z)
        (body : FastbootRoute.Body) (log : Log) :
  FastbootRoute.action body <> Some "flash-partition" ->
  FastbootRoute.action body <> Some "validate-image" ->
  FastbootRoute.POST sh fileSize body log = FastbootRoute.POST sh fileSize' body log.
Proof.
  intros Hfp Hvi.
  assert (Hval : forall name,
             String.eqb (FastbootRoute.valueOf (FastbootRoute.action body)) name = true ->
             name <> "" -> FastbootRoute.action body = Some name).
  { intros name He Hne. apply String.eqb_eq in He.
    destruct (FastbootRoute.action body) as [a|]; simpl in He; congruence. }
  unfold FastbootRoute.POST, tryCatch.
  repeat (match goal with
          | |- context [if String.eqb ?a ?b then _ else _] =>
              let E := fresh "E" in
              destruct (String.eqb a b) eqn:E;
              [try (apply Hval in E; [congruence | discriminate]) |]
          end; cbv beta iota); reflexivity.
Qed.

(** X13 at a request to flash the radio partition from a file that does
    not exist. *)
Lemma other_actions_ignore_the_file_system_witness :
  FastbootRoute.POST Examples.twoDevices MoreExamples.noImage
                     MoreExamples.flashMissingRadio [] =
  FastbootRoute.POST Examples.twoDevices Examples.anyImage
                     MoreExamples.flashMissingRadio [].
Proof.
  apply (other_actions_ignore_the_file_system Examples.twoDevices
           MoreExamples.noImage Examples.anyImage MoreExamples.flashMissingRadio []);
    discriminate.
Defined.

Example flash_radio_of_missing_file :
  FastbootRoute.POST Examples.twoDevices MoreExamples.noImage
                     MoreExamples.flashMissingRadio [] =
  (Returned (FastbootRoute.CommandResponse
               {| success := true; output := "OKAY" ++ Examples.newline;
                  error := None |} None),
   ["fastboot flash radio " ++ dquote ++ "/nowhere/radio.img" ++ dquote]).
Proof. reflexivity. Qed.

End RouteFacts.

(** ** More about [search-advanced] *)

Module SearchAdvancedFacts.
Import JS JSLogic RadioSearchRoute SearchAdvanced SearchFacts.

Local Open Scope Z_scope.

Section Sorting.

Context {A : Type} (cmp : A -> A -> Z).

Lemma insertSorted_permutation x l : Permutation (insertSorted cmp x l) (x :: l).
Proof.
  induction l as [|y l IH]; simpl; [reflexivity|].
  destruct (cmp x y <=? 0); [reflexivity|].
  rewrite IH. apply perm_swap.
Qed.

Lemma sort_permutation l : Permutation (sort cmp l) l.
Proof.
  unfold sort. induction l as [|x l IH]; simpl; [reflexivity|].
  rewrite insertSorted_permutation. now constructor.
Qed.

Hypothesis cmp_total : forall x y, cmp x y <= 0 \/ cmp y x <= 0.
Hypothesis cmp_trans : forall x y z, cmp x y <= 0 -> cmp y z <= 0 -> cmp x z <= 0.

Lemma insertSorted_sorted x l :
  StronglySorted (fun a b => cmp a b <= 0) l ->
  StronglySorted (fun a b => cmp a b <= 0) (insertSorted cmp x l).
Proof.
  induction 1 as [|y l Hs IH Hy]; simpl.
  - repeat constructor.
  - destruct (cmp x y <=? 0) eqn:E.
    + apply Z.leb_le in E. constructor; [now constructor|].
      constructor; [exact E|].
      eapply Forall_impl; [|exact Hy]. cbv beta. intros z Hz. now apply (cmp_trans x y z).
    + apply Z.leb_gt in E. constructor; [exact IH|].
      eapply Permutation_Forall.
      * symmetry. apply insertSorted_permutation.
      * constructor; [|exact Hy]. destruct (cmp_total y x); [assumption | lia].
Qed.

Lemma sort_sorted l : StronglySorted (fun a b => cmp a b <= 0) (sort cmp l).
Proof.
  unfold sort. induction l as [|x l IH]; simpl; [constructor|].
  now apply insertSorted_sorted.
Qed.

(** A comparator that separates nothing leaves the array as it is. *)
Lemma sort_nothing_to_separate l :
  (forall x y, cmp x y <= 0) -> sort cmp l = l.
Proof.
  intros Hle. unfold sort. induction l as [|x l IH]; simpl; [reflexivity|].
  rewrite IH. destruct l as [|y l]; simpl; [reflexivity|].
  now replace (cmp x y <=? 0) with true by (symmetry; apply Z.leb_le; apply Hle).
Qed.

End Sorting.

Lemma sorted_firstn {A} (R : A -> A -> Prop) n :
  forall l, StronglySorted R l -> StronglySorted R (firstn n l).
Proof.
  induction n as [|n IH]; intros l Hs; simpl; [constructor|].
  destruct l as [|x l]; [constructor|].
  inversion Hs as [|? ? Hs' Hx]; subst. constructor; [now apply IH|].
  rewrite <- (firstn_skipn n l) in Hx. apply Forall_app in Hx. tauto.
Qed.

Lemma sorted_across {A} (R : A -> A -> Prop) :
  forall l1 l2, StronglySorted R (l1 ++ l2)%list ->
                forall x y, In x l1 -> In y l2 -> R x y.
Proof.
  induction l1 as [|a l1 IH]; intros l2 Hs x y Hx Hy; [contradiction|].
  simpl in Hs. inversion Hs as [|? ? Hs' Ha]; subst.
  destruct Hx as [<-|Hx].
  - rewrite Forall_forall in Ha. apply Ha. apply in_or_app. now right.
  - now apply (IH l2 Hs').
Qed.

Lemma compareBy_total key a b :
  compareBy key a b <= 0 \/ compareBy key b a <= 0.
Proof.
  unfold compareBy.
  destruct (String.eqb key "version").
  - rewrite (localeCompare_antisym (version b) (version a)). lia.
  - destruct (String.eqb key "date"); [lia|].
    destruct (String.eqb key "size"); lia.
Qed.

Lemma compareBy_trans key a b c :
  compareBy key a b <= 0 -> compareBy key b c <= 0 -> compareBy key a c <= 0.
Proof.
  unfold compareBy.
  destruct (String.eqb key "version").
  - intros H1 H2. exact (localeCompare_trans _ _ _ H2 H1).
  - destruct (String.eqb key "date"); [lia|].
    destruct (String.eqb key "size"); lia.
Qed.

Lemma sortFirmware_permutation sortBy l : Permutation (sortFirmware sortBy l) l.
Proof.
  unfold sortFirmware. destruct sortBy as [key|]; [|reflexivity].
  destruct (nonEmpty key); [apply sort_permutation | reflexivity].
Qed.

Lemma sortFirmware_sorted key l :
  nonEmpty key = true ->
  StronglySorted (fun a b => compareBy key (record a) (record b) <= 0)
                 (sortFirmware (Some key) l).
Proof.
  intros Hk. unfold sortFirmware. rewrite Hk.
  apply (sort_sorted (fun a b => compareBy key (record a) (record b))).
  - intros x y. apply compareBy_total.
  - intros x y z. apply compareBy_trans.
Qed.

Lemma limit_splits limit l query sortBy found :
  l = sortFirmware sortBy (filterByQuery query found) ->
  (limitResults limit l ++ cutOff query sortBy limit found)%list = l.
Proof.
  intros ->. unfold limitResults, cutOff. destruct limit as [n|].
  - destruct (0 <? n); [apply firstn_skipn | apply app_nil_r].
  - apply app_nil_r.
Qed.

Lemma filterByQuery_incl query l fw : In fw (filterByQuery query l) -> In fw l.
Proof.
  unfold filterByQuery. destruct query as [q|]; [|auto].
  destruct (nonEmpty q); [|auto]. intros H. now apply filter_In in H.
Qed.

(** X14.  [search-advanced] returns records that the catalogue search
    found and that passed the query filter, each as often as it was found:
    the records returned and the records cut off by the limit are, together,
    a rearrangement of the filtered records.  [totalCount] is the number of
    records returned; with a positive limit it is the smaller of the limit
    and the number of filtered records, and with no limit, or a limit of
    zero or less, every filtered record is returned.  [hasMore] is always
    [false]. *)
Theorem searchAdvanced_returns_found_records (query sortBy : option string)
        (limit : option Z) (found : list Firmware) :
  Permutation (firmware (searchAdvanced query sortBy limit found)
               ++ cutOff query sortBy limit found)%list
              (filterByQuery query found) /\
  (forall fw, In fw (firmware (searchAdvanced query sortBy limit found)) ->
              In fw found) /\
  totalCount (searchAdvanced query sortBy limit found) =
    List.length (firmware (searchAdvanced query sortBy limit found)) /\
  hasMore (searchAdvanced query sortBy limit found) = false /\
  totalCount (searchAdvanced query sortBy limit found) =
    match limit with
    | Some n =>
        if 0 <? n
        then Nat.min (Z.to_nat n) (List.length (filterByQuery query found))
        else List.length (filterByQuery query found)
    | None => List.length (filterByQuery query found)
    end.
Proof.
  cbn [searchAdvanced firmware totalCount hasMore].
  pose proof (limit_splits limit _ query sortBy found eq_refl) as Hsplit.
  pose proof (sortFirmware_permutation sortBy (filterByQuery query found)) as Hperm.
  split; [now rewrite Hsplit|]. split.
  - intros fw Hin. apply (filterByQuery_incl query).
    apply (Permutation_in _ Hperm). rewrite <- Hsplit. apply in_or_app. now left.
  - repeat split.
    unfold limitResults. destruct limit as [n|].
    + destruct (0 <? n).
      * now rewrite length_firstn, (Permutation_length Hperm).
      * apply (Permutation_length Hperm).
    + apply (Permutation_length Hperm).
Qed.

Lemma limitResults_sorted R limit l :
  StronglySorted R l -> StronglySorted R (limitResults limit l).
Proof.
  intros Hs. unfold limitResults. destruct limit as [n|]; [|exact Hs].
  destruct (0 <? n); [now apply sorted_firstn | exact Hs].
Qed.

Lemma date_order a b :
  compareBy "date" (record a) (record b) <= 0 <->
  buildDate (record b) <= buildDate (record a).
Proof. unfold compareBy. cbn [String.eqb Ascii.eqb Bool.eqb]. lia. Qed.

Lemma size_order a b :
  compareBy "size" (record a) (record b) <= 0 <->
  size (record b) <= size (record a).
Proof. unfold compareBy. cbn [String.eqb Ascii.eqb Bool.eqb]. lia. Qed.

(** X15.  The records [search-advanced] returns are in the order asked
    for: newest build first for [date], largest first for [size], and for
    [version] highest first in the order of [localeCompare]. *)
Theorem searchAdvanced_is_sorted (query : option string) (limit : option Z)
        (found : list Firmware) :
  StronglySorted (fun a b => buildDate (record b) <= buildDate (record a))
                 (firmware (searchAdvanced query (Some "date") limit found)) /\
  StronglySorted (fun a b => size (record b) <= size (record a))
                 (firmware (searchAdvanced query (Some "size") limit found)) /\
  StronglySorted (fun a b => localeCompare (version (record b)) (version (record a)) <= 0)
                 (firmware (searchAdvanced query (Some "version") limit found)).
Proof.
  cbn [searchAdvanced firmware]. repeat split; apply limitResults_sorted.
  - eapply StronglySorted_ind
      with (P := StronglySorted (fun a b => buildDate (record b) <= buildDate (record a)));
      [constructor | | apply (sortFirmware_sorted "date"); reflexivity].
    intros a l _ IH Ha. constructor; [exact IH|].
    eapply Forall_impl; [|exact Ha]. intros b. apply date_order.
  - eapply StronglySorted_ind
      with (P := StronglySorted (fun a b => size (record b) <= size (record a)));
      [constructor | | apply (sortFirmware_sorted "size"); reflexivity].
    intros a l _ IH Ha. constructor; [exact IH|].
    eapply Forall_impl; [|exact Ha]. intros b. apply size_order.
  - apply (sortFirmware_sorted "version"). reflexivity.
Qed.

(** X16.  What a limit cuts off is what the sort put last: no record that
    was cut off has a later build date (for [date]), a larger size (for
    [size]) or a version that compares higher (for [version]) than a record
    that was returned. *)
Theorem searchAdvanced_keeps_the_top (query : option string) (limit : option Z)
        (found : list Firmware) :
  (forall kept cut,
     In kept (firmware (searchAdvanced query (Some "date") limit found)) ->
     In cut (cutOff query (Some "date") limit found) ->
     buildDate (record cut) <= buildDate (record kept)) /\
  (forall kept cut,
     In kept (firmware (searchAdvanced query (Some "size") limit found)) ->
     In cut (cutOff query (Some "size") limit found) ->
     size (record cut) <= size (record kept)) /\
  (forall kept cut,
     In kept (firmware (searchAdvanced query (Some "version") limit found)) ->
     In cut (cutOff query (Some "version") limit found) ->
     localeCompare (version (record cut)) (version (record kept)) <= 0).
Proof.
  cbn [searchAdvanced firmware].
  assert (Hcross : forall key, nonEmpty key = true ->
            forall kept cut,
              In kept (limitResults limit
                         (sortFirmware (Some key) (filterByQuery query found))) ->
              In cut (cutOff query (Some key) limit found) ->
              compareBy key (record kept) (record cut) <= 0).
  { intros key Hk kept cut Hkept Hcut.
    pose proof (sortFirmware_sorted key (filterByQuery query found) Hk) as Hs.
    rewrite <- (limit_splits limit _ query (Some key) found eq_refl) in Hs.
    exact (sorted_across _ _ _ Hs kept cut Hkept Hcut). }
  repeat split; intros kept cut Hkept Hcut.
  - apply date_order. now apply Hcross.
  - apply size_order. now apply Hcross.
  - now apply (Hcross "version").
Qed.

(** X17.  A [sortBy] that is none of [version], [date] and [size] leaves
    the records in the order in which the search found them. *)
Theorem unknown_sort_key_keeps_order (key : string) (found : list Firmware) :
  key <> "version" -> key <> "date" -> key <> "size" ->
  sortFirmware (Some key) found = found.
Proof.
  intros Hv Hd Hs. unfold sortFirmware.
  destruct (nonEmpty key); [|reflexivity].
  apply sort_nothing_to_separate. intros x y. unfold compareBy.
  destruct (String.eqb_spec key "version"); [contradiction|].
  destruct (String.eqb_spec key "date"); [contradiction|].
  destruct (String.eqb_spec key "size"); [contradiction|]. lia.
Qed.

(** X17 at the key [name]. *)
Lemma unknown_sort_key_keeps_order_witness :
  sortFirmware (Some "name") MoreExamples.catalogue = MoreExamples.catalogue.
Proof.
  apply (unknown_sort_key_keeps_order "name" MoreExamples.catalogue); discriminate.
Defined.

Lemma matchesQuery_cases searchQuery fw :
  matchesQuery searchQuery fw = true <->
  includes (toLowerCase (version (record fw))) searchQuery = true \/
  (exists text, changelog fw = Some text /\
                includes (toLowerCase text) searchQuery = true) \/
  includes (toLowerCase (region (record fw))) searchQuery = true.
Proof.
  unfold matchesQuery.
  destruct (includes (toLowerCase (version (record fw))) searchQuery) eqn:Ev;
    cbn [orJS isTruthy]; [tauto|].
  destruct (changelog fw) as [text|]; cbn [includesLowered orJS].
  - destruct (includes (toLowerCase text) searchQuery) eqn:Ec; cbn [orJS isTruthy].
    + split; [|reflexivity]. intros _. right. left. exists text. now split.
    + destruct (includes (toLowerCase (region (record fw))) searchQuery) eqn:Er;
        cbn [isTruthy].
      * split; [intros _; right; right; reflexivity | reflexivity].
      * split; [discriminate|].
        intros [H|[(t & Ht & H)|H]]; try discriminate.
        injection Ht as <-. congruence.
  - destruct (includes (toLowerCase (region (record fw))) searchQuery) eqn:Er;
      cbn [isTruthy].
    + split; [intros _; right; right; reflexivity | reflexivity].
    + split; [discriminate|].
      intros [H|[(t & Ht & H)|H]]; discriminate.
Qed.

(** X18.  With a non-empty query, every record [search-advanced] returns
    holds the query, in lower case, in its version, its changelog or its
    region, in lower case; a record with no changelog is matched on version
    and region.  When no limit applies, every record found that holds the
    query is returned. *)
Theorem searchAdvanced_matches_query (query : string) (sortBy : option string)
        (limit : option Z) (found : list Firmware) :
  nonEmpty query = true ->
  (forall fw,
     In fw (firmware (searchAdvanced (Some query) sortBy limit found)) ->
     includes (toLowerCase (version (record fw))) (toLowerCase query) = true \/
     (exists text, changelog fw = Some text /\
                   includes (toLowerCase text) (toLowerCase query) = true) \/
     includes (toLowerCase (region (record fw))) (toLowerCase query) = true) /\
  (forall fw,
     In fw found ->
     matchesQuery (toLowerCase query) fw = true ->
     In fw (firmware (searchAdvanced (Some query) sortBy None found))).
Proof.
  intros Hq. cbn [searchAdvanced firmware]. split.
  - intros fw Hin. apply matchesQuery_cases.
    assert (Hin' : In fw (sortFirmware sortBy (filterByQuery (Some query) found))).
    { rewrite <- (limit_splits limit _ (Some query) sortBy found eq_refl).
      apply in_or_app. now left. }
    apply (Permutation_in _ (sortFirmware_permutation sortBy _)) in Hin'.
    unfold filterByQuery in Hin'. rewrite Hq in Hin'.
    now apply filter_In in Hin'.
  - intros fw Hin Hm. cbn [limitResults].
    apply (Permutation_in _ (Permutation_sym (sortFirmware_permutation sortBy _))).
    unfold filterByQuery. rewrite Hq. apply filter_In. now split.
Qed.

(** X18 at the query [MODEM] over a catalogue of three records. *)
Lemma searchAdvanced_matches_query_witness :
  (forall fw,
     In fw (firmware (searchAdvanced (Some "MODEM") (Some "date") (Some 5)
                                     MoreExamples.catalogue)) ->
     includes (toLowerCase (version (record fw))) (toLowerCase "MODEM") = true \/
     (exists text, changelog fw = Some text /\
                   includes (toLowerCase text) (toLowerCase "MODEM") = true) \/
     includes (toLowerCase (region (record fw))) (toLowerCase "MODEM") = true) /\
  (forall fw,
     In fw MoreExamples.catalogue ->
     matchesQuery (toLowerCase "MODEM") fw = true ->
     In fw (firmware (searchAdvanced (Some "MODEM") (Some "date") None
                                     MoreExamples.catalogue))).
Proof.
  apply (searchAdvanced_matches_query "MODEM" (Some "date") (Some 5)
           MoreExamples.catalogue).
  reflexivity.
Defined.

Example searchAdvanced_example :
  map (fun fw => version (record fw))
      (firmware (searchAdvanced None (Some "date") (Some 2) MoreExamples.catalogue))
  = ["11.0.9"; "11.0.5"] /\
  map (fun fw => version (record fw))
      (firmware (searchAdvanced (Some "eu") (Some "size") (Some 0)
                                MoreExamples.catalogue))
  = ["11.0.5"; "10.3.8"] /\
  map (fun fw => version (record fw))
      (firmware (searchAdvanced (Some "MODEM") None None MoreExamples.catalogue))
  = ["11.0.5"].
Proof. repeat split. Qed.

End SearchAdvancedFacts.

(** ** More about the fastboot route and the installation check *)

Module RouteMoreFacts.
Import JS FastbootManager FastbootQueries StringFacts FastbootFacts RouteFacts.

Lemma prefix_decomposes sub :
  forall s, prefix sub s = true <-> exists b, s = sub ++ b.
Proof.
  induction sub as [|c sub IH]; intros s.
  - split; [intros _; now exists s | intros _; now destruct s].
  - destruct s as [|d s]; simpl.
    + split; [discriminate | intros (b & H); discriminate].
    + destruct (Ascii.ascii_dec c d) as [->|Hne].
      * rewrite IH. split; intros (b & H); exists b; [now rewrite H | now inversion H].
      * split; [discriminate|]. intros (b & H). inversion H. congruence.
Qed.

Lemma includes_decomposes sub :
  forall s, includes s sub = true <-> exists a b, s = a ++ sub ++ b.
Proof.
  induction s as [|c s IH]; cbn [includes].
  - rewrite orb_false_r, prefix_decomposes. split.
    + intros (b & H). now exists "", b.
    + intros (a & b & H). destruct a; [now exists b | discriminate].
  - rewrite orb_true_iff, prefix_decomposes, IH. split.
    + intros [(b & H) | (a & b & H)]; [now exists "", b|].
      exists (String c a), b. now rewrite H.
    + intros (a & b & H). destruct a as [|d a]; [left; now exists b|].
      right. inversion H. now exists a, b.
Qed.

(** X19.  [checkFastbootInstallation] never rejects.  It answers [true]
    exactly when the standard output of [fastboot --version] contains
    [fastboot version] or [Android Debug Bridge]; standard error is not
    looked at, and a command that fails gives [false]. *)
Theorem checkFastbootInstallation_reads_stdout (sh : Shell) (log : Log) :
  exists installed,
    checkFastbootInstallation sh log =
      (Returned installed, (log ++ ["fastboot --version"])%list) /\
    match sh "fastboot --version" with
    | Returned (stdout, _) =>
        installed = true <->
        (exists a b, stdout = a ++ "fastboot version" ++ b) \/
        (exists a b, stdout = a ++ "Android Debug Bridge" ++ b)
    | Threw _ => installed = false
    end.
Proof.
  unfold checkFastbootInstallation, tryCatch, bind, execAsync, ret.
  destruct (sh "fastboot --version") as [[stdout stderr]|message].
  - eexists. split; [reflexivity|].
    now rewrite orb_true_iff, !includes_decomposes.
  - eexists. split; reflexivity.
Qed.

(** X20.  Only [unlock-bootloader] answers with a message beside the
    command's result: that action runs [fastboot flashing unlock] and adds
    the request to confirm on the device whether or not the command
    succeeded, and no other action's response carries a message. *)
Theorem only_unlock_adds_a_message (sh : Shell) (fileSize : string -> option Z)
        (body : FastbootRoute.Body) (log : Log) :
  (FastbootRoute.action body = Some "unlock-bootloader" ->
   exists result,
     FastbootRoute.POST sh fileSize body log =
     (Returned (FastbootRoute.CommandResponse result
                  (Some "Please confirm bootloader unlock on your device")),
      (log ++ [fullCommandOf "flashing unlock" (FastbootRoute.deviceId body)])%list)) /\
  (FastbootRoute.action body <> Some "unlock-bootloader" ->
   forall result message log',
     FastbootRoute.POST sh fileSize body log <>
     (Returned (FastbootRoute.CommandResponse result (Some message)), log')).
Proof.
  split.
  - intros Ha. unfold FastbootRoute.POST, tryCatch, bind, ret, unlockBootloader.
    rewrite Ha. cbn [FastbootRoute.valueOf String.eqb Ascii.eqb Bool.eqb].
    rewrite executeCommand_run. eexists. reflexivity.
  - intros Hne result message log'.
    assert (Hval : String.eqb (FastbootRoute.valueOf (FastbootRoute.action body))
                              "unlock-bootloader" = false).
    { apply String.eqb_neq. intros He.
      destruct (FastbootRoute.action body) as [a|]; simpl in He; congruence. }
    unfold FastbootRoute.POST, FastbootRoute.flashWith, FastbootRoute.respond,
      tryCatch, bind, ret.
    unfold lockBootloader, flashRecovery, flashBoot, flashSystem,
      flashRadio, flashModem, flashPartition, erasePartition, formatPartition,
      rebootDevice, continueBootloader, validateImage, tryCatch, throw, ret.
    rewrite Hval.
    repeat (match goal with
            | |- context [if String.eqb ?a ?b then _ else _] =>
                destruct (String.eqb a b)
            | |- context [if negb ?a || negb ?b then _ else _] => destruct a, b
            | |- context [if negb ?b then _ else _] => destruct b
            | |- context [match fileSize ?p with _ => _ end] =>
                destruct (fileSize p) as [size|]
            | |- context [if (0 <? ?z)%Z then _ else _] => destruct (0 <? z)%Z
            end; cbn [negb orb]; cbv beta iota);
      rewrite ?executeCommand_run; try discriminate.
    destruct (getPartitionInfo_run sh
                (FastbootRoute.valueOf (FastbootRoute.infoPartition body))
                (FastbootRoute.deviceId body) log) as (info & ->).
    discriminate.
Qed.

(** X21.  Defaults of the route.  A [format-partition] request with no
    file system, or an empty one, formats as [ext4]; a [reboot] request with
    no mode, or an empty one, reboots into the system. *)
Theorem missing_options_take_defaults (sh : Shell) (fileSize : string -> option Z)
        (body : FastbootRoute.Body) (log : Log) :
  (forall partition,
     FastbootRoute.action body = Some "format-partition" ->
     FastbootRoute.formatPartition body = Some partition ->
     nonEmpty partition = true ->
     truthy (FastbootRoute.filesystem body) = false ->
     snd (FastbootRoute.POST sh fileSize body log) =
     (log ++ [fullCommandOf ("format:ext4 " ++ partition)%string
                            (FastbootRoute.deviceId body)])%list) /\
  (FastbootRoute.action body = Some "reboot" ->
   truthy (FastbootRoute.mode body) = false ->
   snd (FastbootRoute.POST sh fileSize body log) =
   (log ++ [fullCommandOf "reboot" (FastbootRoute.deviceId body)])%list).
Proof.
  split.
  - intros partition Ha Hp Hne Hfs.
    unfold FastbootRoute.POST, FastbootRoute.respond, tryCatch, bind, ret,
      formatPartition.
    rewrite Ha, Hp. cbn [FastbootRoute.valueOf String.eqb Ascii.eqb Bool.eqb truthy].
    rewrite Hne. cbn [negb].
    assert (Hdef : orElse (FastbootRoute.filesystem body) "ext4" = "ext4").
    { unfold orElse. destruct (FastbootRoute.filesystem body) as [f|]; [|reflexivity].
      simpl in Hfs. now rewrite Hfs. }
    rewrite Hdef, executeCommand_run. reflexivity.
  - intros Ha Hm.
    unfold FastbootRoute.POST, FastbootRoute.respond, tryCatch, bind, ret,
      rebootDevice.
    rewrite Ha. cbn [FastbootRoute.valueOf String.eqb Ascii.eqb Bool.eqb].
    assert (Hdef : orElse (FastbootRoute.mode body) "system" = "system").
    { unfold orElse. destruct (FastbootRoute.mode body) as [m|]; [|reflexivity].
      simpl in Hm. now rewrite Hm. }
    rewrite Hdef. cbn [String.eqb Ascii.eqb Bool.eqb].
    rewrite executeCommand_run. reflexivity.
Qed.

End RouteMoreFacts.
